(** * IESModel: topology builder, heat-pump constraints and solve loop

    A shallow embedding of [ies_simulation.py] (class [IESModel]):
    [__init__], [build_model], the closure [extra_functionality] and
    [solve].  The PyPSA network is the object the code mutates through
    [n.add]; it is carried as explicit state in a small state-and-exception
    monad.  PyPSA is not part of the repository: what [n.add] refuses is a
    parameter of the builder, and every statement that needs the library to
    accept a component says so.  The linopy model that
    [extra_functionality] extends is a pair of ordered tables (variables,
    constraints) whose entries keep the expressions the source writes. *)

From Stdlib Require Import QArith Lqa.
From stdpp Require Import gmap strings list.

Local Open Scope string_scope.
#[local] Set Warnings "-register-all".

(** ** Python values held in the configuration dictionary *)

Inductive value : Type :=
| VNone
| VBool (b : bool)
| VInt (z : Z)
| VFloat (q : Q)
| VStr (s : string)
| VList (l : list value)
| VTuple (l : list value).

(** The configuration record [self.data] is a Python [dict] keyed by
    strings. *)
Abbreviation config := (gmap string value).

(** [d.get(k, default)] *)
Definition dict_get (d : config) (k : string) (dflt : value) : value :=
  default dflt (d !! k).

(** [k in d] *)
Definition dict_has (d : config) (k : string) : bool :=
  bool_decide (is_Some (d !! k)).

(** ** The PyPSA network as the code uses it *)

Inductive comp_class := Bus | Generator | Load | Link | StorageUnit.

#[global] Instance comp_class_eq_dec : EqDecision comp_class.
Proof. solve_decision. Defined.

(** Keyword arguments of one [n.add] call, in the order written. *)
Abbreviation attrs := (list (string * value)).

(** One static table ([n.buses], [n.links], ...): rows in insertion order,
    indexed by component name. *)
Abbreviation table := (list (string * attrs)).

Record Network := mkNetwork {
  snapshots : list Z;
  buses : table;
  generators : table;
  loads : table;
  links : table;
  storage_units : table
}.

Definition static (n : Network) (c : comp_class) : table :=
  match c with
  | Bus => buses n
  | Generator => generators n
  | Load => loads n
  | Link => links n
  | StorageUnit => storage_units n
  end.

Definition set_static (n : Network) (c : comp_class) (t : table) : Network :=
  match c with
  | Bus => mkNetwork (snapshots n) t (generators n) (loads n) (links n) (storage_units n)
  | Generator => mkNetwork (snapshots n) (buses n) t (loads n) (links n) (storage_units n)
  | Load => mkNetwork (snapshots n) (buses n) (generators n) t (links n) (storage_units n)
  | Link => mkNetwork (snapshots n) (buses n) (generators n) (loads n) t (storage_units n)
  | StorageUnit => mkNetwork (snapshots n) (buses n) (generators n) (loads n) (links n) t
  end.

(** [df.index] *)
Definition index (t : table) : list string := t.*1.

(** [name in df.index] *)
Definition in_index (name : string) (t : table) : bool :=
  bool_decide (name ∈ index t).

(** First entry under [key] of an ordered table. *)
Fixpoint assoc {A} (key : string) (l : list (string * A)) : option A :=
  match l with
  | [] => None
  | (k, a) :: l' => if decide (k = key) then Some a else assoc key l'
  end.

(** [df.at[name, key]] for a keyword that was passed to [n.add]. *)
Definition at_ (t : table) (name key : string) : option value :=
  a ← assoc name t; assoc key a.

(** ** Exceptions and the state monad of the methods *)

(** The exceptions the modelled code can meet ([KeyError], [TypeError],
    [IndexError], the [ValueError] with which the library refuses a value,
    whatever [n.optimize] raises), and the two error kinds of the design
    document, which no statement of the source raises.  All are subclasses
    of [Exception]. *)
Inductive exn :=
| KeyError (k : string)
| TypeError (what : string)
| IndexError
| ValueError (what : string)
| SolverError (msg : string)
| ConfigurationError
| TopologyError.

Inductive outcome (A : Type) :=
| Ok (a : A)
| Raise (e : exn).
Arguments Ok {A} a.
Arguments Raise {A} e.

(** A statement: runs on the mutable object [S] (the network, the linopy
    model, the console), may mutate it, and either returns or raises; what
    was mutated before a raise stays mutated. *)
Definition M (S A : Type) : Type := S → outcome A * S.

#[global] Instance M_ret {S} : MRet (M S) := λ A a s, (Ok a, s).
#[global] Instance M_bind {S} : MBind (M S) := λ A B f m s,
  match m s with
  | (Ok a, s') => f a s'
  | (Raise e, s') => (Raise e, s')
  end.

Definition raise {S A} (e : exn) : M S A := λ s, (Raise e, s).

(** [try: body except Exception as e: handler] *)
Definition try_except {S A} (body : M S A) (handler : exn → M S A) : M S A :=
  λ s, match body s with
       | (Ok a, s') => (Ok a, s')
       | (Raise e, s') => handler e s'
       end.

(** [d[k]] *)
Definition dict_getitem {S} (d : config) (k : string) : M S value :=
  match d !! k with
  | Some v => mret v
  | None => raise (KeyError k)
  end.

(** What [n.add] raises for a component of class [c] called [name] with
    the keyword values [kwargs], on the network as it is at the call, if
    it raises at all.  The checks are those of the library (PyPSA raises
    [ValueError] for a series whose length is not the number of snapshots);
    they are not part of the repository. *)
Definition validator : Type := Network → comp_class → string → attrs → option exn.

Section Library.
Variable validate : validator.

(** [n.add(class_name, name, **kwargs)]: a component the library refuses
    is not added and the exception is raised; a name the table already has
    is skipped; otherwise a row is appended to the table of the class. *)
Definition add (c : comp_class) (name : string) (kwargs : attrs) : M Network unit :=
  λ n, match validate n c name kwargs with
       | Some e => (Raise e, n)
       | None =>
         if in_index name (static n c)
         then (Ok (), n)
         else (Ok (), set_static n c (static n c ++ [(name, kwargs)]))
       end.

(** [if cond: body] *)
Definition when {S} (cond : bool) (body : M S unit) : M S unit :=
  if cond then body else mret ().

(** [for x in xs: body] *)
Fixpoint for_ {S A} (xs : list A) (body : A → M S unit) : M S unit :=
  match xs with
  | [] => mret ()
  | x :: xs' => body x ;; for_ xs' body
  end.

(** ** [IESModel.__init__] *)

Record IESModel := mkIES {
  data : config;
  hours : Z;
  n : Network
}.

(** [range(h)] *)
Definition range (h : Z) : list Z := Z.of_nat <$> seq 0 (Z.to_nat h).

Definition empty_network (sns : list Z) : Network :=
  mkNetwork sns [] [] [] [] [].

(** [n = pypsa.Network(); n.set_snapshots(sns)]: the library refuses an
    empty sequence of snapshots. *)
Definition set_snapshots (sns : list Z) : outcome Network :=
  match sns with
  | [] => Raise (ValueError "snapshots")
  | _ => Ok (empty_network sns)
  end.

(** [data.get('hours', 24)] must be usable by [range], and [range(hours)]
    must not be empty. *)
Definition init (d : config) : outcome IESModel :=
  let make (h : Z) :=
    match set_snapshots (range h) with
    | Ok n => Ok (mkIES d h n)
    | Raise e => Raise e
    end in
  match dict_get d "hours" (VInt 24) with
  | VInt h => make h
  | VBool b => make (Z.b2z b)
  | _ => Raise (TypeError "range")
  end.

(** ** [IESModel.build_model]

    [d] is [self.data]; the state of the monad is [self.n]; [validate] is
    what the library refuses when [n.add] is called. *)

Definition default_devices : list string :=
  ["electric_boiler"; "ashp"; "gshp_shallow"; "gshp_deep";
   "electrolyzer"; "fuel_cell"; "battery"; "h2_storage"].

(** [components is None or k in components] *)
Definition selected (components : option (list string)) (k : string) : bool :=
  match components with
  | None => true
  | Some l => bool_decide (k ∈ l)
  end.

(** [all_devices = components if components is not None else [...]] *)
Definition all_devices (components : option (list string)) : list string :=
  match components with
  | Some l => l
  | None => default_devices
  end.

Definition hp_types : list (string * (string * string)) :=
  [("ashp", ("ashp", "空气源热泵"));
   ("gshp_shallow", ("gshp_shallow", "浅层地源热泵"));
   ("gshp_deep", ("gshp_deep", "中深层地源热泵"))].

Definition build_model (d : config) (components : option (list string))
  : M Network unit :=
  add Bus "electricity" [("carrier", VStr "AC")] ;;
  add Bus "heat" [("carrier", VStr "heat")] ;;
  add Bus "cooling" [("carrier", VStr "cooling")] ;;
  add Bus "hydrogen" [("carrier", VStr "H2")] ;;
  when (selected components "grid")
    (add Generator "grid"
       [("bus", VStr "electricity");
        ("p_nom_extendable", VBool true);
        ("marginal_cost", dict_get d "grid_cost" VNone)]) ;;
  when (selected components "pv")
    (pv_pu ← dict_getitem d "pv_pu";
     add Generator "pv"
       [("bus", VStr "electricity");
        ("p_nom", dict_get d "pv_p_nom" (VInt 100));
        ("p_max_pu", pv_pu);
        ("marginal_cost", dict_get d "pv_cost" (VFloat 0.01))]) ;;
  let all_devices := all_devices components in
  elec_load ← dict_getitem d "elec_load";
  add Load "elec_load" [("bus", VStr "electricity"); ("p_set", elec_load)] ;;
  heat_load ← dict_getitem d "heat_load";
  add Load "heat_load" [("bus", VStr "heat"); ("p_set", heat_load)] ;;
  cool_load ← dict_getitem d "cool_load";
  add Load "cool_load" [("bus", VStr "cooling"); ("p_set", cool_load)] ;;
  when (dict_has d "h2_load")
    (h2_load ← dict_getitem d "h2_load";
     add Load "h2_load" [("bus", VStr "hydrogen"); ("p_set", h2_load)]) ;;
  when (bool_decide ("electric_boiler" ∈ all_devices))
    (add Link "electric_boiler"
       [("bus0", VStr "electricity");
        ("bus1", VStr "heat");
        ("p_nom", dict_get d "boiler_p_nom" (VInt 20));
        ("efficiency", dict_get d "boiler_eff" (VFloat 0.98))]) ;;
  for_ hp_types (λ '(hp_key, (prefix, name)),
    when (bool_decide (hp_key ∈ all_devices))
      (add Link (prefix ++ "_heating")
         [("bus0", VStr "electricity");
          ("bus1", VStr "heat");
          ("p_nom", dict_get d (prefix ++ "_p_nom") (VInt 40));
          ("efficiency", dict_get d (prefix ++ "_eff") (VFloat 3.0))] ;;
       add Link (prefix ++ "_cooling")
         [("bus0", VStr "electricity");
          ("bus1", VStr "cooling");
          ("p_nom", dict_get d (prefix ++ "_p_nom") (VInt 40));
          ("efficiency", dict_get d (prefix ++ "_eer") (VFloat 3.5))])) ;;
  when (bool_decide ("electrolyzer" ∈ all_devices))
    (add Link "electrolyzer"
       [("bus0", VStr "electricity");
        ("bus1", VStr "hydrogen");
        ("p_nom", dict_get d "ely_p_nom" (VInt 50));
        ("efficiency", dict_get d "ely_eff" (VFloat 0.75))]) ;;
  when (bool_decide ("fuel_cell" ∈ all_devices))
    (add Link "fuel_cell"
       [("bus0", VStr "hydrogen");
        ("bus1", VStr "electricity");
        ("bus2", VStr "heat");
        ("p_nom", dict_get d "fc_p_nom" (VInt 50));
        ("efficiency", dict_get d "fc_eff_elec" (VFloat 0.45));
        ("efficiency2", dict_get d "fc_eff_heat" (VFloat 0.40))]) ;;
  when (bool_decide ("battery" ∈ all_devices))
    (add StorageUnit "battery"
       [("bus", VStr "electricity");
        ("p_nom", dict_get d "bat_p_nom" (VInt 30));
        ("max_hours", dict_get d "bat_hours" (VInt 4));
        ("efficiency_store", dict_get d "bat_eff_store" (VFloat 0.9));
        ("efficiency_dispatch", dict_get d "bat_eff_dispatch" (VFloat 0.9));
        ("cyclic_state_of_charge", VBool true);
        ("marginal_cost", VFloat 0.01)]) ;;
  when (bool_decide ("h2_storage" ∈ all_devices))
    (add StorageUnit "h2_storage"
       [("bus", VStr "hydrogen");
        ("p_nom", dict_get d "h2s_p_nom" (VInt 100));
        ("max_hours", dict_get d "h2s_hours" (VInt 20));
        ("efficiency_store", VFloat 0.98);
        ("efficiency_dispatch", VFloat 0.98);
        ("cyclic_state_of_charge", VBool true);
        ("marginal_cost", VFloat 0.005)]).

(** [IESModel(d).build_model(components)] on the network [__init__] made
    for the snapshots [sns]. *)
Definition run_build (d : config) (components : option (list string)) (sns : list Z)
  : outcome () * Network :=
  build_model d components (empty_network sns).
End Library.

(** ** The linopy model [n.model] *)

Inductive axis :=
| Snapshot (sns : list Z)
| Name (names : list string).

Record var_decl := mkVar {
  v_coords : list axis;
  v_binary : bool
}.

(** Expressions over variable arrays, kept as the source writes them; every
    expression is an array over the snapshots. *)
Inductive linexpr :=
| EVar (var : string)
| ESel (var : string) (name : string)
| ENum (c : value)
| EAdd (a b : linexpr)
| ESub (a b : linexpr)
| EMul (a b : linexpr).

(** [lhs <= rhs], the only sense the source uses. *)
Record constraint := mkCon {
  c_lhs : linexpr;
  c_rhs : linexpr
}.

Record Model := mkModel {
  variables : list (string * var_decl);
  constraints : list (string * constraint)
}.

Definition coord_names (v : var_decl) : list string :=
  flat_map (λ a, match a with Name l => l | Snapshot _ => [] end) (v_coords v).

(** [var.sel(name=name)]: a label that is not a coordinate is a [KeyError]. *)
Definition sel (var : string) (decl : var_decl) (name : string) : M Model linexpr :=
  if bool_decide (name ∈ coord_names decl)
  then mret (ESel var name)
  else raise (KeyError name).

(** [n.model.variables[name]] *)
Definition get_variable (name : string) : M Model linexpr :=
  λ m, match assoc name (variables m) with
       | Some _ => (Ok (EVar name), m)
       | None => (Raise (KeyError name), m)
       end.

(** [n.model.add_variables(coords=coords, name=name, binary=binary)] *)
Definition add_variables (coords : list axis) (name : string) (binary : bool)
  : M Model unit :=
  λ m, (Ok (), mkModel (variables m ++ [(name, mkVar coords binary)]) (constraints m)).

(** [n.model.add_constraints(lhs <= rhs, name=name)] *)
Definition add_constraints (lhs rhs : linexpr) (name : string) : M Model unit :=
  λ m, (Ok (), mkModel (variables m) (constraints m ++ [(name, mkCon lhs rhs)])).

(** [n.links.at[name, "p_nom"]]: a link added without [p_nom] has the
    library default 0. *)
Definition links_at_p_nom (n : Network) (name : string) : M Model value :=
  match assoc name (links n) with
  | Some a => mret (default (VFloat 0) (assoc "p_nom" a))
  | None => raise (KeyError name)
  end.

(** ** [extra_functionality], the closure inside [IESModel.solve] *)

(** The body of the loop over the three heat-pump prefixes. *)
Definition heat_pump_constraints (n : Network) (snapshots : list Z)
    (p_links : var_decl) (prefix : string) : M Model unit :=
  let heating_name := prefix ++ "_heating" in
  let cooling_name := prefix ++ "_cooling" in
  when (in_index heating_name (links n) && in_index cooling_name (links n))
    (p0_heat ← sel "Link-p" p_links heating_name;
     p0_cool ← sel "Link-p" p_links cooling_name;
     p_nom ← links_at_p_nom n heating_name;
     add_constraints (EAdd p0_heat p0_cool) (ENum p_nom)
       (prefix ++ "_capacity_sharing") ;;
     add_variables [Snapshot snapshots] (prefix ++ "_mode") true ;;
     z ← get_variable (prefix ++ "_mode");
     add_constraints (ESub p0_heat (EMul z (ENum p_nom))) (ENum (VInt 0))
       (prefix ++ "_heating_exclusion") ;;
     add_constraints
       (ESub p0_cool (EMul (ESub (ENum (VInt 1)) z) (ENum p_nom)))
       (ENum (VInt 0))
       (prefix ++ "_cooling_exclusion")).

Definition extra_functionality (n : Network) (snapshots : list Z) : M Model unit :=
  λ model,
  (match assoc "Link-p" (variables model) return M Model unit with
   | None => mret ()
   | Some p_links =>
     for_ ["ashp"; "gshp_shallow"; "gshp_deep"]
       (heat_pump_constraints n snapshots p_links)
   end) model.

(** A problem with a binary variable is a mixed-integer program. *)
Definition is_mip (m : Model) : bool :=
  existsb (λ x, v_binary x.2) (variables m).

(** ** Meaning of a constraint at one snapshot *)

(** Values of the variable arrays: array name, label selected on the name
    axis if any, snapshot. *)
Definition assignment := string → option string → Z → Q.

Definition num (v : value) : option Q :=
  match v with
  | VInt z => Some (inject_Z z)
  | VFloat q => Some q
  | VBool b => Some (inject_Z (Z.b2z b))
  | _ => None
  end.

Fixpoint eval (ρ : assignment) (t : Z) (e : linexpr) : option Q :=
  match e with
  | EVar var => Some (ρ var None t)
  | ESel var name => Some (ρ var (Some name) t)
  | ENum c => num c
  | EAdd a b => x ← eval ρ t a; y ← eval ρ t b; Some (x + y)%Q
  | ESub a b => x ← eval ρ t a; y ← eval ρ t b; Some (x - y)%Q
  | EMul a b => x ← eval ρ t a; y ← eval ρ t b; Some (x * y)%Q
  end.

Definition holds (ρ : assignment) (t : Z) (c : constraint) : Prop :=
  match eval ρ t (c_lhs c), eval ρ t (c_rhs c) with
  | Some x, Some y => (x <= y)%Q
  | _, _ => False
  end.

(** ** [IESModel.solve] *)

(** What the method does to the outside: lines printed and calls of
    [n.optimize], each with its [solver_name] ([None] for the call without
    one). *)
Record World := mkWorld {
  stdout : list string;
  calls : list (option string)
}.

Definition print (s : string) : M World unit :=
  λ w, (Ok (), mkWorld (stdout w ++ [s]) (calls w)).

(** [str(e)] *)
Definition exn_str (e : exn) : string :=
  match e with
  | KeyError k => "'" ++ k ++ "'"
  | TypeError what => what
  | IndexError => "tuple index out of range"
  | ValueError what => what
  | SolverError msg => msg
  | ConfigurationError => "ConfigurationError"
  | TopologyError => "TopologyError"
  end.

(** [results[0] if isinstance(results, tuple) else results] *)
Definition status_of (results : value) : M World value :=
  match results with
  | VTuple [] => raise IndexError
  | VTuple (s :: _) => mret s
  | v => mret v
  end.

(** [status == 'ok'] *)
Definition is_ok (status : value) : bool :=
  match status with
  | VStr s => bool_decide (s = "ok")
  | _ => false
  end.

Section Solve.
(** The library and the solver are not part of the repository:
    [create_model] is the linopy model PyPSA builds from the network
    before it calls [extra_functionality]; [backend solver_name model] is
    what solving the finished model returns or raises. *)
Variable create_model : Network → Model.
Variable backend : option string → Model → outcome value.

(** What one call of [n.optimize] comes back with: the library builds the
    model, runs the closure on it and solves the result; whatever is
    raised on the way is raised by the call. *)
Definition answer (n : Network) (solver_name : option string) : outcome value :=
  match extra_functionality n (snapshots n) (create_model n) with
  | (Ok _, model) => backend solver_name model
  | (Raise e, _) => Raise e
  end.

(** [self.n.optimize(solver_name=..., extra_functionality=...)] *)
Definition optimize (n : Network) (solver_name : option string) : M World value :=
  λ w, (answer n solver_name, mkWorld (stdout w) (calls w ++ [solver_name])).

(** The body of the [for solver in [...]] loop: [true] when it sets
    [success] and breaks, [false] when the loop goes on. *)
Definition attempt (n : Network) (solver : string) : M World bool :=
  try_except
    (print ("Attempting optimization with solver: " ++ solver) ;;
     results ← optimize n (Some solver);
     status ← status_of results;
     if is_ok status
     then print ("Optimization successful with " ++ solver) ;; mret true
     else mret false)
    (λ e, print ("Solver " ++ solver ++ " failed: " ++ exn_str e) ;;
          mret false).

(** The loop; the result is [success] when the loop is left. *)
Fixpoint solve_loop (n : Network) (solvers : list string) : M World bool :=
  match solvers with
  | [] => mret false
  | solver :: rest =>
    attempt n solver ≫= λ success : bool,
      if success then mret true else solve_loop n rest
  end.

Definition solve (self : IESModel) : M World bool :=
  solve_loop (n self) ["gurobi"; "copt"; "glpk"] ≫= λ success : bool,
  if negb success
  then
    try_except
      (print "Trying default solver..." ;;
       optimize (n self) None ;;
       mret true)
      (λ e, print ("All optimization attempts failed: " ++ exn_str e) ;;
            mret false)
  else mret success.
End Solve.

Definition console : World := mkWorld [] [].

(** ** Shapes used in the statements *)

(** Rows a guarded statement contributes. *)
Definition optl {A} (b : bool) (l : list A) : list A := if b then l else [].

(** A library that refuses nothing. *)
Definition lenient : validator := λ _ _ _ _, None.

(** The components [build_model] hands to [n.add], as far as it gets when
    none is refused: the network it leaves with a library that refuses
    nothing. *)
Definition requested (d : config) (components : option (list string)) (sns : list Z)
  : Network :=
  (run_build lenient d components sns).2.

(** The library accepts the rows [t] for the class [c] on every network
    with the snapshots [sns]. *)
Definition accepts (validate : validator) (sns : list Z) (c : comp_class) (t : table)
  : Prop :=
  ∀ n name kwargs, snapshots n = sns → (name, kwargs) ∈ t →
                   validate n c name kwargs = None.

(** The library accepts every component of the network [N]. *)
Definition accepted (validate : validator) (N : Network) : Prop :=
  ∀ c, accepts validate (snapshots N) c (static N c).

(** Every row of [t] was accepted by the library on some network with the
    snapshots [sns]. *)
Definition validated (validate : validator) (sns : list Z) (c : comp_class) (t : table)
  : Prop :=
  Forall (λ r, ∃ n, snapshots n = sns ∧ validate n c r.1 r.2 = None) t.

(** The check of the library that the examples need: a list given for a
    keyword must have one entry per snapshot. *)
Definition wrong_length (n : Network) (kv : string * value) : bool :=
  match kv.2 with
  | VList l => negb (length l =? length (snapshots n))%nat
  | _ => false
  end.

Definition check_lengths : validator := λ n c name kwargs,
  match List.filter (wrong_length n) kwargs with
  | (key, _) :: _ => Some (ValueError key)
  | [] => None
  end.

(** No list in a row of [N] has a length other than the number of
    snapshots. *)
Definition lengths_fit (N : Network) : bool :=
  forallb (λ c, forallb (λ r, forallb (λ kv, negb (wrong_length N kv)) r.2) (static N c))
          [Bus; Generator; Load; Link; StorageUnit].

(** The series [build_model] reads with [d[k]], in the order it reads them;
    a key read with [d.get] is never missing. *)
Definition missing_series (d : config) (components : option (list string))
  : option string :=
  if selected components "pv" && negb (dict_has d "pv_pu") then Some "pv_pu"
  else if negb (dict_has d "elec_load") then Some "elec_load"
  else if negb (dict_has d "heat_load") then Some "heat_load"
  else if negb (dict_has d "cool_load") then Some "cool_load"
  else None.

Definition hp_prefixes : list string := ["ashp"; "gshp_shallow"; "gshp_deep"].

(** Rows of a table called [name]. *)
Definition named (name : string) (t : table) : table :=
  filter (λ r, r.1 = name) t.

(** Rows of a table whose name starts with [prefix]. *)
Definition starting {A} (prefix : string) (t : list (string * A)) : list (string * A) :=
  filter (λ r, String.prefix prefix r.1 = true) t.

(** The capacity the closure reads for the pair: [p_nom] of the heating
    link. *)
Definition family_p_nom (n : Network) (prefix : string) : value :=
  default (VFloat 0) (at_ (links n) (prefix ++ "_heating") "p_nom").

(** The mode variable and the three named constraints of one pair. *)
Definition family_variable (sns : list Z) (prefix : string) : string * var_decl :=
  (prefix ++ "_mode", mkVar [Snapshot sns] true).

Definition family_constraints (n : Network) (prefix : string)
  : list (string * constraint) :=
  let l_heat := ESel "Link-p" (prefix ++ "_heating") in
  let l_cool := ESel "Link-p" (prefix ++ "_cooling") in
  let z := EVar (prefix ++ "_mode") in
  let p_nom := ENum (family_p_nom n prefix) in
  [(prefix ++ "_capacity_sharing", mkCon (EAdd l_heat l_cool) p_nom);
   (prefix ++ "_heating_exclusion",
    mkCon (ESub l_heat (EMul z p_nom)) (ENum (VInt 0)));
   (prefix ++ "_cooling_exclusion",
    mkCon (ESub l_cool (EMul (ESub (ENum (VInt 1)) z) p_nom)) (ENum (VInt 0)))].

(** For each device with a capacity read from the configuration: the key
    read and the default written in the call. *)
Definition p_nom_params : list (string * (string * value)) :=
  [("pv", ("pv_p_nom", VInt 100));
   ("electric_boiler", ("boiler_p_nom", VInt 20));
   ("ashp_heating", ("ashp_p_nom", VInt 40));
   ("ashp_cooling", ("ashp_p_nom", VInt 40));
   ("gshp_shallow_heating", ("gshp_shallow_p_nom", VInt 40));
   ("gshp_shallow_cooling", ("gshp_shallow_p_nom", VInt 40));
   ("gshp_deep_heating", ("gshp_deep_p_nom", VInt 40));
   ("gshp_deep_cooling", ("gshp_deep_p_nom", VInt 40));
   ("electrolyzer", ("ely_p_nom", VInt 50));
   ("fuel_cell", ("fc_p_nom", VInt 50));
   ("battery", ("bat_p_nom", VInt 30));
   ("h2_storage", ("h2s_p_nom", VInt 100))].

(** The test [extra_functionality] makes to find a heat-pump pair. *)
Definition family_present (n : Network) (prefix : string) : bool :=
  in_index (prefix ++ "_heating") (links n) && in_index (prefix ++ "_cooling") (links n).

(** What the closure relies on in the model the library hands it: the
    dispatch array of the links is there when the network has links, and it
    is labelled by them. *)
Definition link_p_ok (n : Network) (m : Model) : Prop :=
  match assoc "Link-p" (variables m) with
  | Some p_links => index (links n) ⊆ coord_names p_links
  | None => links n = []
  end.

(** The part of the library's model the closure looks at, for running
    examples: one continuous dispatch array over snapshots and links, absent
    when the network has no link. *)
Definition dispatch_model (n : Network) : Model :=
  mkModel
    (match links n with
     | [] => []
     | _ => [("Link-p", mkVar [Snapshot (snapshots n); Name (index (links n))] false)]
     end) [].




(** What [build_model] fixes about a generator, link or storage unit. *)
Definition fixed_capacity (d : config) (name : string) (a : attrs) : Prop :=
  assoc "capital_cost" a = None
  ∧ if decide (name = "grid")
    then assoc "p_nom_extendable" a = Some (VBool true)
         ∧ assoc "p_nom" a = None
    else assoc "p_nom_extendable" a = None
         ∧ ∃ key dflt, assoc name p_nom_params = Some (key, dflt)
             ∧ assoc "p_nom" a = Some (dict_get d key dflt).

(** Every generator, link and storage unit of [n] satisfies [P]. *)
Definition devices_satisfy (P : string → attrs → Prop) (n : Network) : Prop :=
  ∀ name a, (name, a) ∈ (generators n ++ links n ++ storage_units n)%list → P name a.

(** A statement that keeps [I] true of the network, also when it raises. *)
Definition preserves {A} (I : Network → Prop) (m : M Network A) : Prop :=
  ∀ n, I n → I (m n).2.

(** When the statement [mv] returns, the same statement with a library
    that refuses nothing returns the same, the snapshots are as before, and
    every row it added was accepted by the library. *)
Definition tracks {A} (validate : validator) (mv ml : M Network A) : Prop :=
  ∀ n a n1, mv n = (Ok a, n1) →
    ml n = (Ok a, n1)
    ∧ snapshots n1 = snapshots n
    ∧ ∀ c, ∃ new, static n1 c = (static n c ++ new)%list
                  ∧ validated validate (snapshots n) c new.

(** What [build_model] can raise: the [KeyError] of a key the configuration
    lacks, or what the library raised in [n.add]. *)
Definition build_error (validate : validator) (d : config) (e : exn) : Prop :=
  (∃ k, e = KeyError k ∧ dict_has d k = false)
  ∨ (∃ n c name kwargs, validate n c name kwargs = Some e).


Definition long_elec_load : config :=
  {[ "elec_load" := VList [VInt 50; VInt 50; VInt 50];
     "cool_load" := VList [VInt 0; VInt 300];
     "hours" := VInt 2 ]}.

(** A statement that leaves the bus table as it found it. *)
Definition keeps_buses {A} (m : M Network A) : Prop :=
  ∀ n, buses (m n).2 = buses n.

(** A statement that raises nothing but exceptions in [P]. *)
Definition raises_only {S A} (P : exn → Prop) (m : M S A) : Prop :=
  ∀ s e s', m s = (Raise e, s') → P e.



(** The status a call of [n.optimize] came back with is ['ok']. *)
Definition optimal (r : outcome value) : bool :=
  match r with
  | Ok (VTuple (s :: _)) => is_ok s
  | Ok (VTuple []) => false
  | Ok v => is_ok v
  | Raise _ => false
  end.

(** The solvers the loop calls: up to and including the first whose answer
    is optimal. *)
Fixpoint tried (answers : string → outcome value) (solvers : list string)
  : list string :=
  match solvers with
  | [] => []
  | s :: rest => s :: (if optimal (answers s) then [] else tried answers rest)
  end.

(** Backends for examples: none of the named solvers is installed and the
    default one finds the problem infeasible; every call fails with the
    same message. *)
Definition only_default_infeasible (solver_name : option string) (_ : Model)
  : outcome value :=
  match solver_name with
  | Some _ => Raise (SolverError "solver not installed")
  | None => Ok (VTuple [VStr "warning"; VStr "infeasible"])
  end.

Definition always_raising (msg : string) (_ : option string) (_ : Model)
  : outcome value :=
  Raise (SolverError msg).

(** A small configuration for examples. *)
Definition demo_data : config :=
  {[ "elec_load" := VList [VInt 50; VInt 50];
     "heat_load" := VList [VInt 300; VInt 0];
     "cool_load" := VList [VInt 0; VInt 300];
     "pv_pu" := VList [VFloat 0.5; VFloat 0];
     "ashp_p_nom" := VInt 500;
     "hours" := VInt 2 ]}.

(** The model object after [IESModel(demo_data).build_model(['ashp'])]. *)
Definition demo_model : IESModel :=
  mkIES demo_data 2 (run_build check_lengths demo_data (Some ["ashp"]) (range 2)).2.

(** ** Shapes used in the further properties *)

(** The identifiers [build_model] looks for in [components]. *)
Definition device_ids : list string :=
  ["grid"; "pv"; "electric_boiler"; "ashp"; "gshp_shallow"; "gshp_deep";
   "electrolyzer"; "fuel_cell"; "battery"; "h2_storage"].

(** The keys of the configuration [build_model] reads. *)
Definition config_keys : list string :=
  ["grid_cost"; "pv_pu"; "pv_p_nom"; "pv_cost";
   "elec_load"; "heat_load"; "cool_load"; "h2_load";
   "boiler_p_nom"; "boiler_eff";
   "ashp_p_nom"; "ashp_eff"; "ashp_eer";
   "gshp_shallow_p_nom"; "gshp_shallow_eff"; "gshp_shallow_eer";
   "gshp_deep_p_nom"; "gshp_deep_eff"; "gshp_deep_eer";
   "ely_p_nom"; "ely_eff";
   "fc_p_nom"; "fc_eff_elec"; "fc_eff_heat";
   "bat_p_nom"; "bat_hours"; "bat_eff_store"; "bat_eff_dispatch";
   "h2s_p_nom"; "h2s_hours"].

(** The buses a row refers to, under whichever of the keywords [bus],
    [bus0], [bus1], [bus2] it was given. *)
Definition bus_refs (a : attrs) : list value :=
  omap (λ key, assoc key a) ["bus"; "bus0"; "bus1"; "bus2"].

(** A model that keeps what another has, in place, and may have more. *)
Definition extends (m m' : Model) : Prop :=
  variables m `prefix_of` variables m' ∧ constraints m `prefix_of` constraints m'.

(** A statement on the model that only appends to it. *)
Definition grows {A} (f : M Model A) : Prop :=
  ∀ m, extends m (f m).2.

(** A network with the heating link of a pair but not its cooling link. *)
Definition lone_heating_link : Network :=
  mkNetwork [0; 1]%Z [] [] []
    [("ashp_heating",
      [("bus0", VStr "electricity"); ("bus1", VStr "heat"); ("p_nom", VInt 40)])]
    [].

(** A model whose dispatch array carries no link labels. *)
Definition unlabelled_model (_ : Network) : Model :=
  mkModel [("Link-p", mkVar [] false)] [].

(** What came back from a call of [n.optimize] was returned, not raised. *)
Definition returned {A} (r : outcome A) : bool :=
  match r with Ok _ => true | Raise _ => false end.

(** ** [IESModel.plot_results]: the link columns of the balance plots

    [columns] are the columns of a dispatch frame of the links
    ([n.links_t.p0], [n.links_t.p1]; one column per link once the network is
    solved), [empty] is its [.empty]. *)

(** [hp_cols] of the electricity plot *)
Definition hp_cols : list string :=
  foldl (λ hp_cols prefix, app hp_cols [prefix ++ "_heating"; prefix ++ "_cooling"])
        [] ["ashp"; "gshp_shallow"; "gshp_deep"].

(** The links summed into [total_elec_cons]. *)
Definition elec_cons_cols (empty : bool) (columns : list string) : list string :=
  if negb empty
  then filter (λ c, c ∈ columns) (app ["electrolyzer"; "electric_boiler"] hp_cols)
  else [].

Definition hp_heating_cols : list string :=
  (λ prefix, prefix ++ "_heating") <$> ["ashp"; "gshp_shallow"; "gshp_deep"].

Definition hp_cooling_cols : list string :=
  (λ prefix, prefix ++ "_cooling") <$> ["ashp"; "gshp_shallow"; "gshp_deep"].

(** The links stacked in the heat plot from [n.links_t.p1]. *)
Definition heat_cols (empty : bool) (columns : list string) : list string :=
  if negb empty
  then filter (λ c, c ∈ columns) (app ["electric_boiler"] hp_heating_cols)
  else [].

(** The links stacked in the cooling plot. *)
Definition cool_cols (empty : bool) (columns : list string) : list string :=
  let cols := filter (λ c, c ∈ columns) hp_cooling_cols in
  if negb empty && negb (bool_decide (cols = [])) then cols else [].

(** [DataFrame.empty]: no row or no column. *)
Definition frame_empty (sns : list Z) (columns : list string) : bool :=
  bool_decide (sns = []) || bool_decide (columns = []).

(** A row is attached to [bus] under the keyword [key]. *)
Definition on_bus (key bus : string) (a : attrs) : bool :=
  match assoc key a with
  | Some (VStr b) => bool_decide (b = bus)
  | _ => false
  end.

(** ** [ies_app.py]: the device selection of the sidebar *)

(** The ten check boxes, in the order the script asks for them. *)
Record Sidebar := mkSidebar {
  cb_pv : bool;
  cb_grid : bool;
  cb_electric_boiler : bool;
  cb_ashp : bool;
  cb_gshp_shallow : bool;
  cb_gshp_deep : bool;
  cb_electrolyzer : bool;
  cb_fuel_cell : bool;
  cb_battery : bool;
  cb_h2_storage : bool
}.

(** [if st.sidebar.checkbox(...): selected_devices.append(name)] *)
Definition append_if (checked : bool) (name : string) (l : list string) : list string :=
  if checked then l ++ [name] else l.

Definition selected_devices (ui : Sidebar) : list string :=
  let selected_devices := [] in
  let selected_devices := append_if (cb_pv ui) "pv" selected_devices in
  let selected_devices := append_if (cb_grid ui) "grid" selected_devices in
  let selected_devices := append_if (cb_electric_boiler ui) "electric_boiler" selected_devices in
  let selected_devices := append_if (cb_ashp ui) "ashp" selected_devices in
  let selected_devices := append_if (cb_gshp_shallow ui) "gshp_shallow" selected_devices in
  let selected_devices := append_if (cb_gshp_deep ui) "gshp_deep" selected_devices in
  let selected_devices := append_if (cb_electrolyzer ui) "electrolyzer" selected_devices in
  let selected_devices := append_if (cb_fuel_cell ui) "fuel_cell" selected_devices in
  let selected_devices := append_if (cb_battery ui) "battery" selected_devices in
  let selected_devices := append_if (cb_h2_storage ui) "h2_storage" selected_devices in
  selected_devices.

(** A sidebar for examples: photovoltaics, grid and the air-source heat
    pump. *)
Definition demo_sidebar : Sidebar :=
  mkSidebar true true false true false false false false false false.

(** ** [ies_app.py]: the topology diagram

    Of the [graphviz.Digraph] only the edges are kept: tail, head and whether
    the edge is drawn with [dir='both'].  Nodes exist as soon as an edge
    names them, and the styling does not change the graph. *)

Definition edge : Type := string * string * bool.

(** [dot.edge(tail, head, ...)] *)
Definition dot_edge (tail_name head_name : string) (both : bool) : M (list edge) unit :=
  λ body, (Ok (), app body [(tail_name, head_name, both)]).

Definition topology (selected_devices : list string) : M (list edge) unit :=
  dot_edge "Bus_Elec" "Load_Elec" false ;;
  dot_edge "Bus_Heat" "Load_Heat" false ;;
  dot_edge "Bus_Cool" "Load_Cool" false ;;
  dot_edge "Bus_H2" "Load_H2" false ;;
  when (bool_decide ("pv" ∈ selected_devices))
    (dot_edge "PV" "Bus_Elec" false) ;;
  when (bool_decide ("grid" ∈ selected_devices))
    (dot_edge "Grid" "Bus_Elec" false) ;;
  when (bool_decide ("electric_boiler" ∈ selected_devices))
    (dot_edge "Bus_Elec" "EB" false ;;
     dot_edge "EB" "Bus_Heat" false) ;;
  for_ ["ashp"; "gshp_shallow"; "gshp_deep"] (λ hp_id,
    when (bool_decide (hp_id ∈ selected_devices))
      (dot_edge "Bus_Elec" hp_id false ;;
       dot_edge hp_id "Bus_Heat" false ;;
       dot_edge hp_id "Bus_Cool" false)) ;;
  when (bool_decide ("electrolyzer" ∈ selected_devices))
    (dot_edge "Bus_Elec" "Ely" false ;;
     dot_edge "Ely" "Bus_H2" false) ;;
  when (bool_decide ("fuel_cell" ∈ selected_devices))
    (dot_edge "Bus_H2" "FC" false ;;
     dot_edge "FC" "Bus_Elec" false ;;
     dot_edge "FC" "Bus_Heat" false) ;;
  when (bool_decide ("battery" ∈ selected_devices))
    (dot_edge "Bus_Elec" "Bat" true) ;;
  when (bool_decide ("h2_storage" ∈ selected_devices))
    (dot_edge "Bus_H2" "H2S" true).

(** The edges of the diagram drawn for a selection. *)
Definition topology_edges (selected_devices : list string) : list edge :=
  (topology selected_devices []).2.

(** [if name in selected_devices: conn += 1] *)
Definition count_if (selected_devices : list string) (name : string) (conn : Z) : Z :=
  if bool_decide (name ∈ selected_devices) then (conn + 1)%Z else conn.

(** The numbers of connections from which the widths of the four bus bars
    are taken. *)
Definition elec_conn (selected_devices : list string) : Z :=
  foldl (λ conn name, count_if selected_devices name conn) 1%Z
        ["pv"; "grid"; "electric_boiler"; "ashp"; "gshp_shallow"; "gshp_deep";
         "electrolyzer"; "fuel_cell"; "battery"].

Definition heat_conn (selected_devices : list string) : Z :=
  foldl (λ conn name, count_if selected_devices name conn) 1%Z
        ["electric_boiler"; "ashp"; "gshp_shallow"; "gshp_deep"; "fuel_cell"].

Definition cool_conn (selected_devices : list string) : Z :=
  foldl (λ conn name, count_if selected_devices name conn) 1%Z
        ["ashp"; "gshp_shallow"; "gshp_deep"].

Definition h2_conn (selected_devices : list string) : Z :=
  foldl (λ conn name, count_if selected_devices name conn) 1%Z
        ["electrolyzer"; "fuel_cell"; "h2_storage"].

(** *** The network read as a graph

    The node of the diagram that stands for a bus or a component of the
    network: both links of a heat pump are one node, named after the pair. *)
Definition bus_nodes : list (string * string) :=
  [("electricity", "Bus_Elec"); ("heat", "Bus_Heat");
   ("cooling", "Bus_Cool"); ("hydrogen", "Bus_H2")].

Definition component_nodes : list (string * string) :=
  [("elec_load", "Load_Elec"); ("heat_load", "Load_Heat");
   ("cool_load", "Load_Cool"); ("h2_load", "Load_H2");
   ("pv", "PV"); ("grid", "Grid"); ("electric_boiler", "EB");
   ("ashp_heating", "ashp"); ("ashp_cooling", "ashp");
   ("gshp_shallow_heating", "gshp_shallow"); ("gshp_shallow_cooling", "gshp_shallow");
   ("gshp_deep_heating", "gshp_deep"); ("gshp_deep_cooling", "gshp_deep");
   ("electrolyzer", "Ely"); ("fuel_cell", "FC");
   ("battery", "Bat"); ("h2_storage", "H2S")].

Definition node_of (nodes : list (string * string)) (name : string) : string :=
  default name (assoc name nodes).

(** The edge between a component and the bus it names under [key]:
    [into] the component or out of it. *)
Definition attachment (key : string) (into both : bool) (row : string * attrs)
  : list edge :=
  match assoc key row.2 with
  | Some (VStr bus) =>
      let b := node_of bus_nodes bus in
      let c := node_of component_nodes row.1 in
      [if into then (b, c, both) else (c, b, both)]
  | _ => []
  end.

(** Generators feed their bus, loads draw from it, a link draws from [bus0]
    and feeds [bus1] and [bus2], a storage unit does both at its bus. *)
Definition network_edges (n : Network) : list edge :=
  app (flat_map (attachment "bus" false false) (generators n))
  (app (flat_map (attachment "bus" true false) (loads n))
  (app (flat_map (λ row, app (attachment "bus0" true false row)
                         (app (attachment "bus1" false false row)
                              (attachment "bus2" false false row)))
                 (links n))
       (flat_map (attachment "bus" true true) (storage_units n)))).

(** An edge ends at the node [v]. *)
Definition touches (v : string) (e : edge) : bool :=
  bool_decide (e.1.1 = v) || bool_decide (e.1.2 = v).

(** Two lists of edges have the same elements. *)
Definition same_edges (l1 l2 : list edge) : bool :=
  forallb (λ e, bool_decide (e ∈ l2)) l1 && forallb (λ e, bool_decide (e ∈ l1)) l2.

(** ** [ies_app.py]: the table of operating conditions *)

(** [s.split('_')[0]] *)
Fixpoint split_0 (s : string) : string :=
  match s with
  | EmptyString => EmptyString
  | String c s' => if String.eqb (String c EmptyString) "_" then EmptyString else String c (split_0 s')
  end.

(** [s.upper()] on ASCII text *)
Definition upper_ascii (c : Ascii.ascii) : Ascii.ascii :=
  let k := Ascii.nat_of_ascii c in
  if (97 <=? k)%nat && (k <=? 122)%nat then Ascii.ascii_of_nat (k - 32) else c.

Fixpoint upper (s : string) : string :=
  match s with
  | EmptyString => EmptyString
  | String c s' => String (upper_ascii c) (upper s')
  end.

(** [pat in s] for a pattern without special characters, as
    [Series.str.contains] tests it on each entry *)
Fixpoint contains (pat s : string) : bool :=
  String.prefix pat s
  || match s with
     | EmptyString => false
     | String _ s' => contains pat s'
     end.

(** One row of [status_list]; the hour stands for its text. *)
Record status := mkStatus {
  hour : Z;
  heat_devices : string;
  cool_devices : string;
  h2_status : string
}.

Section Status.

(** [columns] are the columns of [model.n.links_t.p0], and [p0_gt t link] is
    [model.n.links_t.p0.at[t, link] > 0.1]. *)
Variable columns : list string.
Variable p0_gt : Z → string → bool.

Definition running (t : Z) (link : string) : bool :=
  bool_decide (link ∈ columns) && p0_gt t link.

(** The labels of the links of [candidates] that run at [t]. *)
Definition active (t : Z) (candidates : list string) : list string :=
  foldl (λ active link,
           if running t link then app active [upper (split_0 link)] else active)
        [] candidates.

Definition status_row (t : Z) : status :=
  let active_heat :=
    active t ["electric_boiler"; "ashp_heating"; "gshp_shallow_heating";
              "gshp_deep_heating"; "fuel_cell"] in
  let active_cool :=
    active t ["ashp_cooling"; "gshp_shallow_cooling"; "gshp_deep_cooling"] in
  let active_h2 := if running t "electrolyzer" then ["ELY"] else [] in
  mkStatus t
    (if bool_decide (active_heat = []) then "无" else String.concat ", " active_heat)
    (if bool_decide (active_cool = []) then "无" else String.concat ", " active_cool)
    (if bool_decide (active_h2 = []) then "停止" else "运行").

Definition status_list (snapshots : list Z) : list status :=
  status_row <$> snapshots.

(** [df_links['供热设备'].str.contains("FUEL").sum()] *)
Definition fc_hours (snapshots : list Z) : nat :=
  length (List.filter (λ r, contains "FUEL" (heat_devices r)) (status_list snapshots)).

(** [(df_links['产氢状态'] == "运行").sum()] *)
Definition h2_hours (snapshots : list Z) : nat :=
  length (List.filter (λ r, String.eqb (h2_status r) "运行") (status_list snapshots)).

End Status.

(** The dispatch with the two ground-source heat pumps exchanged. *)
Definition swap_gshp (link : string) : string :=
  default link
    (assoc link [("gshp_shallow_heating", "gshp_deep_heating");
                 ("gshp_deep_heating", "gshp_shallow_heating");
                 ("gshp_shallow_cooling", "gshp_deep_cooling");
                 ("gshp_deep_cooling", "gshp_shallow_cooling")]).

(** ** Symbolic execution of the builder *)

Lemma set_static_same n c : set_static n c (static n c) = n.
Proof. by destruct n, c. Qed.

Lemma in_index_app name (t1 t2 : table) :
  in_index name (t1 ++ t2) = in_index name t1 || in_index name t2.
Proof.
  unfold in_index, index. rewrite fmap_app.
  apply eq_true_iff_eq.
  rewrite orb_true_iff, !bool_decide_eq_true, elem_of_app. done.
Qed.

Lemma in_index_fresh_app name (t1 t2 : table) :
  in_index name t1 = false → in_index name t2 = false →
  in_index name (t1 ++ t2) = false.
Proof. intros H1 H2. by rewrite in_index_app, H1, H2. Qed.

Lemma in_index_fresh_optl name b (t : table) :
  in_index name t = false → in_index name (optl b t) = false.
Proof. by destruct b. Qed.

Lemma snapshots_set_static n c t : snapshots (set_static n c t) = snapshots n.
Proof. by destruct c. Qed.

Lemma when_add_run v b c name kwargs n :
  (b = true → v n c name kwargs = None) →
  in_index name (static n c) = false →
  when b (add v c name kwargs) n
  = (Ok (), set_static n c (static n c ++ optl b [(name, kwargs)])).
Proof.
  intros Hv Hf. destruct b; simpl.
  - unfold add. by rewrite Hv, Hf.
  - by rewrite app_nil_r, set_static_same.
Qed.

Lemma when_add2_run v b c name1 kw1 name2 kw2 n :
  (b = true → v n c name1 kw1 = None) →
  (b = true → v (set_static n c (static n c ++ [(name1, kw1)])) c name2 kw2 = None) →
  in_index name1 (static n c) = false →
  in_index name2 (static n c) = false →
  name2 ≠ name1 →
  when b (add v c name1 kw1 ;; add v c name2 kw2) n
  = (Ok (), set_static n c (static n c ++ optl b [(name1, kw1); (name2, kw2)])).
Proof.
  intros Hv1 Hv2 H1 H2 Hne. destruct b; simpl.
  - unfold mbind, M_bind, add. rewrite Hv1, H1, Hv2 by done.
    assert (in_index name2 (static (set_static n c (static n c ++ [(name1, kw1)])) c) = false) as ->.
    { destruct n, c; simpl in *; apply in_index_fresh_app; try done;
        by apply bool_decide_eq_false_2; unfold index; simpl;
           rewrite list_elem_of_singleton. }
    destruct n, c; simpl; by rewrite <- app_assoc.
  - by rewrite app_nil_r, set_static_same.
Qed.

Lemma when_getitem d k b (body : value → M Network unit) n :
  (b = true → dict_has d k = true) →
  when b (x ← dict_getitem d k; body x) n
  = when b (body (default VNone (d !! k))) n.
Proof.
  intros H. destruct b; [|done]. specialize (H eq_refl).
  unfold dict_has in H. apply bool_decide_eq_true in H as [v Hv].
  simpl. unfold dict_getitem. by rewrite Hv.
Qed.

Lemma getitem_run d k (body : value → M Network unit) n :
  dict_has d k = true →
  (x ← dict_getitem d k; body x) n = body (default VNone (d !! k)) n.
Proof. intros H. by apply (when_getitem d k true body n). Qed.

Lemma bind_run {S A B} (m : M S A) (k : A → M S B) n a n' :
  m n = (Ok a, n') → (m ≫= k) n = k a n'.
Proof. intros H. unfold mbind, M_bind. by rewrite H. Qed.

Lemma add_run v c name kwargs n :
  v n c name kwargs = None →
  in_index name (static n c) = false →
  add v c name kwargs n = (Ok (), set_static n c (static n c ++ [(name, kwargs)])).
Proof. intros Hv H. unfold add. by rewrite Hv, H. Qed.

Lemma accepted_row v N n c name kwargs :
  accepted v N → snapshots n = snapshots N → (name, kwargs) ∈ static N c →
  v n c name kwargs = None.
Proof. intros Hacc Hs Hin. by apply (Hacc c). Qed.

Lemma bind_assoc_run {S A B C} (m : M S A) (k1 : A → M S B) (k2 : B → M S C) n :
  ((m ≫= k1) ≫= k2) n = (m ≫= (λ a, k1 a ≫= k2)) n.
Proof. unfold mbind, M_bind. by destruct (m n) as [[a|e] n']. Qed.

Lemma ret_bind_run {S A B} (a : A) (k : A → M S B) (n : S) : (mret a ≫= k) n = k a n.
Proof. done. Qed.

(** Freshness of a concrete name in a table whose shape is known. *)
Ltac fresh_name :=
  repeat first
    [ apply in_index_fresh_app
    | apply in_index_fresh_optl
    | reflexivity ].

(** A row among those of a table whose shape is known; the guard of the
    row is true by a hypothesis. *)
Ltac find_row :=
  lazymatch goal with
  | |- _ ∈ (_ ++ _)%list =>
      apply elem_of_app; first [ right; solve [find_row] | left; find_row ]
  | |- _ ∈ optl true _ => cbn [optl]; find_row
  | |- _ ∈ optl ?b _ =>
      match goal with
      | H : b = true |- _ => rewrite H; cbn [optl]; find_row
      end
  | |- _ ∈ _ :: _ =>
      first [ apply list_elem_of_here | apply list_elem_of_further; find_row ]
  end.

(** The library accepts the call: it refuses nothing, or the row is one of
    a network it accepts. *)
Ltac accepted_call :=
  intros;
  first
    [ reflexivity
    | lazymatch goal with
      | Hacc : accepted ?v _ |- ?v _ _ _ _ = None =>
          eapply accepted_row;
          [ exact Hacc
          | rewrite ?snapshots_set_static; reflexivity
          | cbn [static buses generators loads links storage_units]; find_row ]
      end ].

Ltac has_key :=
  first [ assumption
        | intros; first [ assumption | tauto | intuition congruence ]
        | let Hx := fresh in intros Hx; vm_compute in Hx; discriminate Hx ].

(** One statement of [build_model] at a time, on the network built so far. *)
Ltac build_step :=
  first
    [ rewrite bind_assoc_run
    | rewrite ret_bind_run
    | erewrite (bind_run (when _ (add _ _ _ _)));
        [| rewrite when_add_run; [reflexivity | accepted_call | fresh_name] ]
    | erewrite (bind_run (when _ (add _ _ _ _ ;; add _ _ _ _)));
        [| rewrite when_add2_run;
           [reflexivity | accepted_call | accepted_call
            | fresh_name | fresh_name | discriminate] ]
    | erewrite (bind_run (when _ (dict_getitem _ _ ≫= _)));
        [| rewrite when_getitem;
           [rewrite when_add_run; [reflexivity | accepted_call | fresh_name] | has_key] ]
    | erewrite (bind_run (add _ _ _ _));
        [| rewrite add_run; [reflexivity | accepted_call | fresh_name] ]
    | rewrite getitem_run by has_key
    | rewrite when_add_run; [| solve [accepted_call] | solve [fresh_name] ] ];
  cbn [static set_static snapshots buses generators loads links storage_units
       app empty_network for_ String.append].

Ltac build_run :=
  unfold run_build, build_model, hp_types;
  cbn [for_ String.append];
  repeat build_step.

(** The hypothesis that the series are there, split into its parts. *)
Ltac need_series H :=
  unfold missing_series in H;
  repeat match type of H with
         | (if ?b then _ else _) = None =>
             let E := fresh "Hk" in destruct b eqn:E; [discriminate H|]
         end;
  repeat match goal with
         | Hk : negb _ = false |- _ => apply negb_false_iff in Hk
         | Hk : _ && negb _ = false |- _ =>
             apply andb_false_iff in Hk; rewrite negb_false_iff in Hk
         end.

(** ** Statements that leave the bus table alone *)

Create HintDb keeps.

Lemma keeps_ret {A} (a : A) : keeps_buses (mret a).
Proof. by intros n. Qed.

Lemma keeps_getitem d k : keeps_buses (dict_getitem d k).
Proof. intros n. unfold dict_getitem. by destruct (d !! k). Qed.

Lemma keeps_add v c name kwargs : c ≠ Bus → keeps_buses (add v c name kwargs).
Proof.
  intros Hc n. unfold add. destruct (v n c name kwargs); [done|].
  destruct (in_index name (static n c)); [done|].
  by destruct c.
Qed.

Lemma keeps_bind {A B} (m : M Network A) (k : A → M Network B) :
  keeps_buses m → (∀ a, keeps_buses (k a)) → keeps_buses (m ≫= k).
Proof.
  intros Hm Hk n. unfold mbind, M_bind. specialize (Hm n).
  destruct (m n) as [[a|e] n1]; simpl in *; [|done].
  by rewrite Hk.
Qed.

Lemma keeps_when b (m : M Network unit) : keeps_buses m → keeps_buses (when b m).
Proof. intros Hm. destruct b; [done | apply keeps_ret]. Qed.

Lemma keeps_for {A} (xs : list A) (body : A → M Network unit) :
  (∀ x, keeps_buses (body x)) → keeps_buses (for_ xs body).
Proof.
  intros Hb. induction xs as [|x xs IH]; simpl.
  - apply keeps_ret.
  - apply keeps_bind; [apply Hb | intros _; apply IH].
Qed.

#[global] Hint Resolve keeps_ret keeps_getitem keeps_bind keeps_when keeps_for : keeps.
#[global] Hint Extern 1 (keeps_buses (add _ _ _ _)) => apply keeps_add; discriminate : keeps.
#[global] Hint Extern 2 (keeps_buses (match ?x with _ => _ end)) => destruct x : keeps.

Lemma in_index_optl name b (t : table) :
  in_index name (optl b t) = b && in_index name t.
Proof. by destruct b. Qed.

Lemma bind_raise_run {S A B} (m : M S A) (k : A → M S B) n e n' :
  m n = (Raise e, n') → (m ≫= k) n = (Raise e, n').
Proof. intros H. unfold mbind, M_bind. by rewrite H. Qed.

Lemma getitem_raise {S B} d k (body : value → M S B) n :
  dict_has d k = false →
  (dict_getitem d k ≫= body) n = (Raise (KeyError k), n).
Proof.
  intros H. unfold dict_has in H. apply bool_decide_eq_false in H.
  unfold mbind, M_bind, dict_getitem.
  destruct (d !! k) eqn:E; [|done]. destruct H. by eexists.
Qed.

(** Membership tests on the link table of the network [build_model]
    returns. *)
Ltac eval_in_index :=
  unfold family_present; cbn [String.append links];
  rewrite ?in_index_app, ?in_index_optl;
  repeat match goal with
         | |- context [in_index ?x (?r :: ?l)] =>
             let v := eval vm_compute in (in_index x (r :: l)) in
             change (in_index x (r :: l)) with v
         end;
  rewrite ?andb_false_r, ?andb_true_r, ?orb_false_r, ?orb_false_l;
  cbn [andb orb].

Lemma filter_optl {A} (P : A → Prop) `{!∀ x, Decision (P x)} b (l : list A) :
  filter P (optl b l) = optl b (filter P l).
Proof. by destruct b. Qed.

Lemma optl_nil {A} b : optl b (@nil A) = [].
Proof. by destruct b. Qed.

(** Rows picked out of the network [build_model] returns. *)
Ltac pick_rows :=
  unfold named, starting;
  rewrite ?filter_app, ?filter_optl;
  repeat match goal with
         | |- context [filter ?P (?r :: ?l)] =>
             let t := eval vm_compute in (index (filter P (r :: l))) in
             match t with
             | [] => replace (filter P (r :: l)) with (@nil (string * attrs)) by reflexivity
             | _ => replace (filter P (r :: l)) with (r :: l) by reflexivity
             end
         end;
  rewrite ?optl_nil; cbn [app].

(** Membership in the tables of the network [build_model] returns. *)
Ltac split_rows H :=
  repeat match type of H with
         | _ ∈ (_ ++ _)%list => apply elem_of_app in H as [H|H]
         | _ ∈ optl ?b _ => destruct b; cbn [optl] in H
         | _ ∈ [] => by apply elem_of_nil in H
         | _ ∈ _ :: _ => apply elem_of_cons in H as [H|H]
         end.

(** ** The builder and the library *)

(** With a library that refuses nothing, [build_model] raises [KeyError]
    for the first series it reads with [d[k]] that is missing, and returns
    otherwise. *)
Ltac until_pv :=
  unfold run_build, build_model; do 5 build_step;
  match goal with Hsel : selected _ "pv" = true |- _ => rewrite Hsel end;
  cbn [when];
  erewrite bind_raise_run; [| by apply getitem_raise].

Ltac until_elec_load :=
  unfold run_build, build_model; do 6 build_step;
  rewrite getitem_raise by assumption.

Ltac until_heat_load :=
  unfold run_build, build_model; do 8 build_step;
  rewrite getitem_raise by assumption.

Ltac until_cool_load :=
  unfold run_build, build_model; do 10 build_step;
  rewrite getitem_raise by assumption.

(** The run with the library [v] is the run with a library that refuses
    nothing, as soon as the latter is known and [v] accepts its rows. *)
Ltac both_runs tac :=
  lazymatch goal with
  | Hacc : accepted ?v (run_build lenient ?d ?comps ?sns).2
    |- run_build ?v ?d ?comps ?sns = run_build lenient ?d ?comps ?sns =>
      let r := fresh "r" in
      let N := fresh "N" in
      let Hreq := fresh "Hreq" in
      evar (r : outcome ()); evar (N : Network);
      assert (Hreq : run_build lenient d comps sns = (r, N))
        by (subst r N; tac; reflexivity);
      rewrite Hreq in Hacc |- *; cbn [snd] in Hacc; subst r N;
      tac; reflexivity
  end.

Lemma run_build_accepted v d comps sns :
  accepted v (requested d comps sns) →
  run_build v d comps sns = run_build lenient d comps sns.
Proof.
  intros Hacc. unfold requested in Hacc.
  destruct (missing_series d comps) as [k|] eqn:H.
  - unfold missing_series in H.
    destruct (selected comps "pv" && negb (dict_has d "pv_pu")) eqn:Hpv.
    { apply andb_true_iff in Hpv as [Hsel Hpu]. apply negb_true_iff in Hpu.
      both_runs until_pv. }
    apply andb_false_iff in Hpv. rewrite negb_false_iff in Hpv.
    destruct (dict_has d "elec_load") eqn:He; cbn [negb] in H.
    2:{ both_runs until_elec_load. }
    destruct (dict_has d "heat_load") eqn:Hh; cbn [negb] in H.
    2:{ both_runs until_heat_load. }
    destruct (dict_has d "cool_load") eqn:Hc; cbn [negb] in H; [discriminate|].
    both_runs until_cool_load.
  - need_series H. both_runs build_run.
Qed.

Lemma run_build_lenient d comps sns :
  (run_build lenient d comps sns).1
  = match missing_series d comps with
    | Some k => Raise (KeyError k)
    | None => Ok ()
    end.
Proof.
  destruct (missing_series d comps) as [k|] eqn:H.
  - unfold missing_series in H.
    destruct (selected comps "pv" && negb (dict_has d "pv_pu")) eqn:Hpv.
    { injection H as <-. apply andb_true_iff in Hpv as [Hsel Hpu].
      apply negb_true_iff in Hpu. until_pv. reflexivity. }
    apply andb_false_iff in Hpv. rewrite negb_false_iff in Hpv.
    destruct (dict_has d "elec_load") eqn:He; cbn [negb] in H.
    2:{ injection H as <-. until_elec_load. reflexivity. }
    destruct (dict_has d "heat_load") eqn:Hh; cbn [negb] in H.
    2:{ injection H as <-. until_heat_load. reflexivity. }
    destruct (dict_has d "cool_load") eqn:Hc; cbn [negb] in H; [discriminate|].
    injection H as <-. until_cool_load. reflexivity.
  - need_series H. build_run. reflexivity.
Qed.

(** With the series there and every requested component accepted,
    [build_model] returns the requested network. *)
Lemma run_build_returns v d comps sns :
  missing_series d comps = None →
  accepted v (requested d comps sns) →
  run_build v d comps sns = (Ok (), requested d comps sns).
Proof.
  intros H Hacc. rewrite (run_build_accepted _ _ _ _ Hacc).
  pose proof (run_build_lenient d comps sns) as Hout. rewrite H in Hout.
  unfold requested. destruct (run_build lenient d comps sns) as [r N].
  cbn in Hout. by subst r.
Qed.

(** *** What a run that returns tells *)

Lemma tracks_ret {A} v (a : A) : tracks v (mret a) (mret a).
Proof.
  intros n a' n1 H. injection H as <- <-. repeat split.
  intros c. exists []. split; [by rewrite app_nil_r | constructor].
Qed.

Lemma tracks_getitem v d k : tracks v (dict_getitem d k) (dict_getitem d k).
Proof.
  unfold dict_getitem. destruct (d !! k); [apply tracks_ret|].
  intros n a n1 H. discriminate H.
Qed.

Lemma tracks_add v c name kwargs :
  tracks v (add v c name kwargs) (add lenient c name kwargs).
Proof.
  intros n a n1 H. unfold add, lenient in *.
  destruct (v n c name kwargs) eqn:Hv; [discriminate H|].
  destruct (in_index name (static n c)).
  - injection H as <- <-. repeat split.
    intros c'. exists []. split; [by rewrite app_nil_r | constructor].
  - injection H as <- <-. split; [done|]. split; [apply snapshots_set_static|].
    intros c'. destruct (decide (c' = c)) as [->|Hne].
    + exists [(name, kwargs)]. split; [by destruct c|].
      apply Forall_singleton. by exists n.
    + exists []. rewrite app_nil_r. split; [|constructor].
      by destruct c, c'.
Qed.

Lemma tracks_bind {A B} v (mv ml : M Network A) (kv kl : A → M Network B) :
  tracks v mv ml → (∀ a, tracks v (kv a) (kl a)) → tracks v (mv ≫= kv) (ml ≫= kl).
Proof.
  intros Hm Hk n b n2 H. unfold mbind, M_bind in *.
  destruct (mv n) as [[a|e] n1] eqn:E; [|discriminate H].
  destruct (Hm n a n1 E) as (-> & Hs1 & Hrows1).
  destruct (Hk a n1 b n2 H) as (-> & Hs2 & Hrows2).
  split; [done|]. split; [congruence|].
  intros c. destruct (Hrows1 c) as (new1 & E1 & Hv1).
  destruct (Hrows2 c) as (new2 & E2 & Hv2).
  exists (new1 ++ new2)%list. split; [by rewrite E2, E1, app_assoc|].
  apply Forall_app. split; [done|]. by rewrite <- Hs1.
Qed.

Lemma tracks_when v b (mv ml : M Network unit) :
  tracks v mv ml → tracks v (when b mv) (when b ml).
Proof. intros H. destruct b; [done | apply tracks_ret]. Qed.

Lemma tracks_for {A} v (xs : list A) (bv bl : A → M Network unit) :
  (∀ x, tracks v (bv x) (bl x)) → tracks v (for_ xs bv) (for_ xs bl).
Proof.
  intros Hb. induction xs as [|x xs IH]; simpl.
  - apply tracks_ret.
  - apply tracks_bind; [apply Hb | intros _; apply IH].
Qed.

Create HintDb tracks.
#[global] Hint Resolve tracks_ret tracks_getitem tracks_add tracks_bind tracks_when
  tracks_for : tracks.
#[global] Hint Extern 2 (tracks _ (match ?x with _ => _ end) _) => destruct x : tracks.

Lemma tracks_build_model v d comps :
  tracks v (build_model v d comps) (build_model lenient d comps).
Proof.
  unfold build_model.
  repeat (apply tracks_bind; [auto with tracks | intros ?]).
  all: auto 10 with tracks.
Qed.

(** A run that returns has found every series and had every component
    accepted: its network is the requested one. *)
Lemma run_build_inv v d comps sns n' :
  run_build v d comps sns = (Ok (), n') →
  missing_series d comps = None
  ∧ n' = requested d comps sns
  ∧ ∀ c, validated v sns c (static n' c).
Proof.
  intros H. destruct (tracks_build_model v d comps _ _ _ H) as (Hl & _ & Hrows).
  pose proof (run_build_lenient d comps sns) as Hout.
  unfold requested, run_build in *. rewrite Hl in Hout |- *. cbn [fst snd] in *.
  split; [by destruct (missing_series d comps)|]. split; [done|].
  intros c. destruct (Hrows c) as (new & -> & Hv). by destruct c.
Qed.

(** *** What the builder can raise *)

Lemma raises_only_elim {S A} (P : exn → Prop) (m : M S A) s e s' :
  raises_only P m → m s = (Raise e, s') → P e.
Proof. intros H E. by eapply H. Qed.

Lemma raises_getitem {S} v d k :
  raises_only (S:=S) (build_error v d) (dict_getitem d k).
Proof.
  intros s e s' H. unfold dict_getitem in H.
  destruct (d !! k) eqn:E; [discriminate H|]. injection H as <- _.
  left. exists k. split; [done|].
  apply bool_decide_eq_false_2. rewrite E. by intros [? ?].
Qed.

Lemma raises_add v d c name kwargs :
  raises_only (build_error v d) (add v c name kwargs).
Proof.
  intros n e n' H. unfold add in H.
  destruct (v n c name kwargs) eqn:Hv.
  - injection H as <- _. right. by exists n, c, name, kwargs.
  - by destruct (in_index name (static n c)).
Qed.

(** *** Invariants of the device tables *)

Lemma preserves_ret {A} I (a : A) : preserves I (mret a).
Proof. by intros n. Qed.

Lemma preserves_getitem I d k : preserves I (dict_getitem d k).
Proof. intros n. unfold dict_getitem. by destruct (d !! k). Qed.

Lemma preserves_bind {A B} I (m : M Network A) (k : A → M Network B) :
  preserves I m → (∀ a, preserves I (k a)) → preserves I (m ≫= k).
Proof.
  intros Hm Hk n Hn. unfold mbind, M_bind. specialize (Hm n Hn).
  destruct (m n) as [[a|e] n1]; simpl in *; [by apply Hk | done].
Qed.

Lemma preserves_when I b (m : M Network unit) : preserves I m → preserves I (when b m).
Proof. intros Hm. destruct b; [done | apply preserves_ret]. Qed.

Lemma preserves_for {A} I (xs : list A) (body : A → M Network unit) :
  (∀ x, preserves I (body x)) → preserves I (for_ xs body).
Proof.
  intros Hb. induction xs as [|x xs IH]; simpl.
  - apply preserves_ret.
  - apply preserves_bind; [apply Hb | intros _; apply IH].
Qed.

Lemma preserves_when_false I b (m : M Network unit) :
  b = false → preserves I (when b m).
Proof. intros ->. apply preserves_ret. Qed.

Lemma check_lengths_accepted N : lengths_fit N = true → accepted check_lengths N.
Proof.
  intros Hfit c n name kwargs Hs Hin. unfold check_lengths.
  assert (Hrow : forallb (λ kv, negb (wrong_length N kv)) kwargs = true).
  { unfold lengths_fit in Hfit. rewrite forallb_forall in Hfit.
    assert (Hc : In c [Bus; Generator; Load; Link; StorageUnit])
      by (destruct c; cbn; tauto).
    specialize (Hfit c Hc). rewrite forallb_forall in Hfit.
    by apply (Hfit (name, kwargs)), list_elem_of_In. }
  assert (Hsame : ∀ kv, wrong_length n kv = wrong_length N kv)
    by (intros kv; unfold wrong_length; by rewrite Hs).
  assert (Hnone : List.filter (wrong_length n) kwargs = []).
  { clear Hin. induction kwargs as [|kv kwargs IH]; [done|].
    cbn [forallb] in Hrow. apply andb_true_iff in Hrow as [Hkv Hrest].
    apply negb_true_iff in Hkv. cbn [List.filter].
    rewrite Hsame, Hkv. by apply IH. }
  by rewrite Hnone.
Qed.

Lemma preserves_add_other P v c name kwargs :
  c = Bus ∨ c = Load → preserves (devices_satisfy P) (add v c name kwargs).
Proof.
  intros Hc n Hn. unfold add. destruct (v n c name kwargs); [done|].
  destruct (in_index name (static n c)); [done|].
  by destruct Hc as [-> | ->].
Qed.

Lemma preserves_add_device P v c name kwargs :
  P name kwargs → preserves (devices_satisfy P) (add v c name kwargs).
Proof.
  intros HP n Hn. unfold add. destruct (v n c name kwargs); [done|].
  destruct (in_index name (static n c)); [done|].
  assert (Hold : ∀ x, x ∈ generators n ∨ x ∈ links n ∨ x ∈ storage_units n → P x.1 x.2).
  { intros [name' a] Hx. apply Hn. rewrite !elem_of_app. tauto. }
  intros name' a Hin. destruct c; cbn in Hin;
    rewrite !elem_of_app, ?list_elem_of_singleton in Hin;
    repeat match goal with H : _ ∨ _ |- _ => destruct H end;
    first [ match goal with H : (_, _) = (_, _) |- _ => by injection H as -> -> end
          | apply (Hold (name', a)); tauto ].
Qed.

(** ** Running the closure *)

Lemma in_index_assoc {A} name (t : list (string * A)) :
  name ∈ t.*1 → is_Some (assoc name t).
Proof.
  induction t as [|[k a] t IH]; simpl.
  - intros H. by apply elem_of_nil in H.
  - intros H. destruct (decide (k = name)); [by eexists|].
    apply elem_of_cons in H as [H|H]; [congruence | by apply IH].
Qed.

Lemma assoc_app_new {A} name (t : list (string * A)) a :
  is_Some (assoc name (t ++ [(name, a)])).
Proof.
  apply in_index_assoc. rewrite fmap_app. apply elem_of_app. right.
  by apply list_elem_of_singleton.
Qed.

(** One pass of the loop body, when the names of the pair are labels of the
    dispatch array. *)
Lemma heat_pump_constraints_run n sns p_links prefix m :
  index (links n) ⊆ coord_names p_links →
  heat_pump_constraints n sns p_links prefix m
  = (Ok (),
     mkModel
       (variables m ++ optl (family_present n prefix) [family_variable sns prefix])
       (constraints m ++ optl (family_present n prefix) (family_constraints n prefix))).
Proof.
  intros Hsub. unfold heat_pump_constraints, family_present.
  destruct (in_index (prefix +:+ "_heating") (links n)) eqn:Hh; cbn [andb];
    [destruct (in_index (prefix +:+ "_cooling") (links n)) eqn:Hc|].
  2,3: destruct m; cbn; by rewrite !app_nil_r.
  apply bool_decide_eq_true in Hh, Hc.
  cbn [when optl]. unfold sel.
  rewrite !bool_decide_eq_true_2 by (by apply Hsub).
  rewrite !ret_bind_run.
  unfold links_at_p_nom, family_constraints, family_p_nom, at_.
  destruct (in_index_assoc _ _ Hh) as [a Ha]. rewrite Ha.
  rewrite ret_bind_run.
  unfold add_constraints, add_variables, get_variable, mbind, M_bind.
  cbn [variables constraints].
  destruct (assoc_app_new (prefix +:+ "_mode") (variables m) (mkVar [Snapshot sns] true))
    as [v Hv].
  rewrite Hv. cbn. by rewrite <- !app_assoc.
Qed.

Lemma extra_functionality_run n sns m :
  link_p_ok n m →
  extra_functionality n sns m
  = (Ok (),
     mkModel
       (variables m
        ++ flat_map (λ p, optl (family_present n p) [family_variable sns p]) hp_prefixes)
       (constraints m
        ++ flat_map (λ p, optl (family_present n p) (family_constraints n p)) hp_prefixes)).
Proof.
  unfold link_p_ok, extra_functionality.
  destruct (assoc "Link-p" (variables m)) as [p_links|]; intros Hok.
  - cbn [for_ hp_prefixes flat_map].
    repeat (erewrite bind_run; [|by apply heat_pump_constraints_run]).
    cbn [variables constraints mret M_ret].
    by rewrite !app_nil_r, <- !app_assoc.
  - unfold family_present. rewrite Hok. destruct m; cbn. by rewrite !app_nil_r.
Qed.

Lemma is_mip_app vs vs' cs cs' :
  is_mip (mkModel (vs ++ vs') cs) = is_mip (mkModel vs cs') || existsb (λ x, v_binary x.2) vs'.
Proof. unfold is_mip. cbn [variables]. apply existsb_app. Qed.

(** In the network [build_model] returns, a pair is present exactly when its
    device was selected. *)
Lemma built_family_present d comps sns k :
  missing_series d comps = None →
  k ∈ hp_prefixes →
  family_present (requested d comps sns) k = bool_decide (k ∈ all_devices comps).
Proof.
  intros H Hk. need_series H. unfold requested. build_run. cbn [snd].
  unfold hp_prefixes in Hk.
  repeat (apply elem_of_cons in Hk as [->|Hk]); [| | |by apply elem_of_nil in Hk].
  all: eval_in_index; by rewrite ?andb_diag.
Qed.

(** Rows of one pair among the constraints the closure added. *)
Ltac pick_family :=
  unfold starting;
  rewrite ?filter_app, ?filter_optl;
  unfold family_constraints; cbn [String.append];
  repeat match goal with
         | |- context [filter ?P (?r :: ?l)] =>
             let t := eval vm_compute in ((filter P (r :: l)).*1) in
             match t with
             | [] => replace (filter P (r :: l)) with (@nil (string * constraint))
                       by reflexivity
             | _ => replace (filter P (r :: l)) with (r :: l) by reflexivity
             end
         end;
  rewrite ?optl_nil; cbn [app optl].

Lemma holds_le ρ t lhs rhs x y :
  eval ρ t lhs = Some x → eval ρ t rhs = Some y →
  holds ρ t (mkCon lhs rhs) ↔ (x <= y)%Q.
Proof. intros Hl Hr. unfold holds. cbn [c_lhs c_rhs]. by rewrite Hl, Hr. Qed.

Lemma Qle_sub_0 (a b : Q) : (a - b <= 0)%Q ↔ (a <= b)%Q.
Proof. split; intros H; lra. Qed.

Lemma dispatch_model_ok n : link_p_ok n (dispatch_model n).
Proof.
  unfold link_p_ok, dispatch_model. destruct (links n) as [|r l] eqn:E; [done|].
  cbn [variables assoc]. rewrite decide_True by done.
  unfold coord_names. cbn [v_coords flat_map]. by rewrite app_nil_r.
Qed.

(** ** What the closure can raise *)

Section RaisesOnly.
Context {S : Type} (P : exn → Prop).

Lemma raises_ret {A} (a : A) : raises_only (S:=S) P (mret a).
Proof. intros s e s' H. discriminate H. Qed.


Lemma raises_bind {A B} (m : M S A) (k : A → M S B) :
  raises_only P m → (∀ a, raises_only P (k a)) → raises_only P (m ≫= k).
Proof.
  intros Hm Hk s e s' H. unfold mbind, M_bind in H.
  destruct (m s) as [[a|e0] s0] eqn:E.
  - by eapply Hk.
  - injection H as <- _. by eapply Hm.
Qed.

Lemma raises_when b (m : M S unit) : raises_only P m → raises_only P (when b m).
Proof. intros Hm. destruct b; [done | apply raises_ret]. Qed.

Lemma raises_for {A} (xs : list A) (body : A → M S unit) :
  (∀ x, raises_only P (body x)) → raises_only P (for_ xs body).
Proof.
  intros Hb. induction xs as [|x xs IH]; simpl.
  - apply raises_ret.
  - apply raises_bind; [apply Hb | intros _; apply IH].
Qed.
End RaisesOnly.








(** ** What the closure reads of the network *)

Lemma for_ext {S A} (xs : list A) (b1 b2 : A → M S unit) :
  (∀ x s, b1 x s = b2 x s) → ∀ s, for_ xs b1 s = for_ xs b2 s.
Proof.
  intros Hb. induction xs as [|x xs IH]; intros s; simpl; [done|].
  unfold mbind, M_bind. rewrite Hb. destruct (b2 x s) as [[a|e] s']; [apply IH | done].
Qed.





(** ** Running the solve loop *)

Section SolveFacts.
Variable create_model : Network → Model.
Variable backend : option string → Model → outcome value.

Abbreviation answer_of net := (λ s, answer create_model backend net (Some s)).

(** One pass of the loop: the solver is called once, and the pass sets
    [success] exactly when the call comes back with status ['ok']. *)
Lemma attempt_run net solver w :
  ∃ out, attempt create_model backend net solver w
         = (Ok (optimal (answer_of net solver)),
            mkWorld (stdout w ++ out) (calls w ++ [Some solver])).
Proof.
  unfold attempt, try_except, mbind, M_bind, print, optimize. cbn [stdout calls].
  destruct (answer create_model backend net (Some solver)) as [v|e]; cbn [optimal].
  - destruct v as [|b|z|q|s|l|l]; cbn [status_of mret M_ret is_ok];
      try (eexists; rewrite <- ?app_assoc; reflexivity).
    + destruct (bool_decide (s = "ok")); cbn [stdout calls];
        eexists; rewrite <- ?app_assoc; reflexivity.
    + destruct l as [|s l]; cbn [status_of mret M_ret raise stdout calls].
      * eexists; rewrite <- ?app_assoc; reflexivity.
      * destruct (is_ok s); cbn [stdout calls];
          eexists; rewrite <- ?app_assoc; reflexivity.
  - cbn [stdout calls]. eexists; rewrite <- ?app_assoc; reflexivity.
Qed.

(** The loop calls the solvers in the order of the list and stops at the
    first optimal answer. *)
Lemma solve_loop_run net solvers w :
  ∃ out, solve_loop create_model backend net solvers w
         = (Ok (existsb (λ s, optimal (answer_of net s)) solvers),
            mkWorld (stdout w ++ out)
                    (calls w ++ (Some <$> tried (answer_of net) solvers))).
Proof.
  revert w. induction solvers as [|s rest IH]; intros w; cbn [solve_loop existsb tried].
  - exists []. destruct w. cbn. by rewrite !app_nil_r.
  - destruct (attempt_run net s w) as [out1 H1].
    unfold mbind, M_bind. rewrite H1.
    destruct (optimal (answer create_model backend net (Some s))); cbn [orb].
    + exists out1. reflexivity.
    + destruct (IH (mkWorld (stdout w ++ out1) (calls w ++ [Some s]))) as [out2 H2].
      rewrite H2. cbn [stdout calls]. exists (out1 ++ out2)%list.
      by rewrite <- !app_assoc.
Qed.
End SolveFacts.

(** ** Lemmas for the further properties *)

Lemma sublist_optl {A} b (l : list A) : optl b l `sublist_of` l.
Proof. destruct b; [done | apply sublist_nil_l]. Qed.

Lemma fmap_optl {A B} (f : A → B) b (l : list A) : f <$> optl b l = optl b (f <$> l).
Proof. by destruct b. Qed.

Lemma index_app (t1 t2 : table) : index (t1 ++ t2) = (index t1 ++ index t2)%list.
Proof. apply fmap_app. Qed.

Lemma index_cons k a (t : table) : index ((k, a) :: t) = k :: index t.
Proof. done. Qed.

Lemma index_optl b (t : table) : index (optl b t) = optl b (index t).
Proof. by destruct b. Qed.

Lemma NoDup_of_sublist {A} (l1 l2 : list A) :
  l1 `sublist_of` l2 → NoDup l2 → NoDup l1.
Proof. intros Hs Hd. by eapply sublist_NoDup. Qed.

(** Whether the grid is among the generators added so far. *)
Ltac eval_gen :=
  rewrite ?in_index_app, ?in_index_optl;
  repeat match goal with
         | |- context [in_index ?x (?r :: ?l)] =>
             let v := eval vm_compute in (in_index x (r :: l)) in
             change (in_index x (r :: l)) with v
         end;
  rewrite ?andb_false_r, ?andb_true_r, ?orb_false_r; reflexivity.

(** ** Statements that only append to the model *)

Lemma extends_refl m : extends m m.
Proof. by split. Qed.

Lemma extends_trans m1 m2 m3 : extends m1 m2 → extends m2 m3 → extends m1 m3.
Proof. intros [? ?] [? ?]. split; by etrans. Qed.

Lemma grows_ret {A} (a : A) : grows (mret a).
Proof. intros m. apply extends_refl. Qed.

Lemma grows_raise {A} e : grows (A:=A) (raise e).
Proof. intros m. apply extends_refl. Qed.

Lemma grows_bind {A B} (f : M Model A) (k : A → M Model B) :
  grows f → (∀ a, grows (k a)) → grows (f ≫= k).
Proof.
  intros Hf Hk m. unfold mbind, M_bind. specialize (Hf m).
  destruct (f m) as [[a|e] m1]; cbn [snd] in *; [|done].
  eapply extends_trans; [exact Hf | apply Hk].
Qed.

Lemma grows_when b (f : M Model unit) : grows f → grows (when b f).
Proof. intros Hf. destruct b; [done | apply grows_ret]. Qed.

Lemma grows_for {A} (xs : list A) (body : A → M Model unit) :
  (∀ x, grows (body x)) → grows (for_ xs body).
Proof.
  intros Hb. induction xs as [|x xs IH]; simpl.
  - apply grows_ret.
  - apply grows_bind; [apply Hb | intros _; apply IH].
Qed.

Lemma grows_sel var decl name : grows (sel var decl name).
Proof. unfold sel. case_bool_decide; [apply grows_ret | apply grows_raise]. Qed.

Lemma grows_links_at net name : grows (links_at_p_nom net name).
Proof.
  unfold links_at_p_nom. destruct (assoc name (links net));
    [apply grows_ret | apply grows_raise].
Qed.

Lemma grows_get_variable name : grows (get_variable name).
Proof.
  intros m. unfold get_variable. destruct (assoc name (variables m)); apply extends_refl.
Qed.

Lemma grows_add_constraints lhs rhs name : grows (add_constraints lhs rhs name).
Proof. intros m. split; cbn; [done | by apply prefix_app_r]. Qed.

Lemma grows_add_variables coords name binary : grows (add_variables coords name binary).
Proof. intros m. split; cbn; [by apply prefix_app_r | done]. Qed.

Lemma grows_heat_pump_constraints net sns p_links prefix :
  grows (heat_pump_constraints net sns p_links prefix).
Proof.
  unfold heat_pump_constraints. apply grows_when.
  repeat first
    [ apply grows_bind; [|intros ?]
    | apply grows_sel | apply grows_links_at | apply grows_get_variable
    | apply grows_add_constraints | apply grows_add_variables ].
Qed.

(** One pass of the loop for a pair that is not complete. *)
Lemma heat_pump_constraints_absent net sns p_links prefix m :
  family_present net prefix = false →
  heat_pump_constraints net sns p_links prefix m = (Ok (), m).
Proof.
  unfold family_present, heat_pump_constraints. intros H. by rewrite H.
Qed.

(** The constraints of a pair that is present are among those of the model
    the closure returns. *)
Lemma family_constraints_emitted net sns m m' prefix :
  link_p_ok net m →
  extra_functionality net sns m = (Ok (), m') →
  prefix ∈ hp_prefixes →
  family_present net prefix = true →
  ∀ x, x ∈ family_constraints net prefix → x ∈ constraints m'.
Proof.
  intros Hok Hrun Hp Hpres x Hx.
  rewrite (extra_functionality_run net sns m Hok) in Hrun. injection Hrun as <-.
  cbn [constraints hp_prefixes flat_map]. unfold hp_prefixes in Hp.
  repeat (apply elem_of_cons in Hp as [->|Hp]); [..|by apply elem_of_nil in Hp];
    rewrite Hpres; cbn [optl]; rewrite !elem_of_app; tauto.
Qed.

(** What the three constraints of a pair say at one snapshot. *)
Lemma family_constraints_meaning net prefix (ρ : assignment) t p_nom :
  num (family_p_nom net prefix) = Some p_nom →
  (∀ x, x ∈ family_constraints net prefix → holds ρ t x.2) →
  let l_heat := ρ "Link-p" (Some (prefix ++ "_heating")) t in
  let l_cool := ρ "Link-p" (Some (prefix ++ "_cooling")) t in
  let z := ρ (prefix ++ "_mode") None t in
  (l_heat + l_cool <= p_nom)%Q
  ∧ (l_heat - z * p_nom <= 0)%Q
  ∧ (l_cool - (1 - z) * p_nom <= 0)%Q.
Proof.
  intros Hnum Hall. cbn zeta. unfold family_constraints in Hall.
  pose proof (Hall _ (list_elem_of_here _ _)) as H1.
  pose proof (Hall _ (list_elem_of_further _ _ _ (list_elem_of_here _ _))) as H2.
  pose proof (Hall _ (list_elem_of_further _ _ _
                        (list_elem_of_further _ _ _ (list_elem_of_here _ _)))) as H3.
  cbn [snd] in H1, H2, H3.
  erewrite holds_le in H1 by (cbn; rewrite ?Hnum; reflexivity).
  erewrite holds_le in H2 by (cbn; rewrite ?Hnum; reflexivity).
  erewrite holds_le in H3 by (cbn; rewrite ?Hnum; reflexivity).
  done.
Qed.

Lemma exclusive_modes (h c z p : Q) :
  (z == 0 ∨ z == 1)%Q → (0 <= h)%Q → (0 <= c)%Q →
  (h - z * p <= 0)%Q → (c - (1 - z) * p <= 0)%Q →
  ((h == 0 ∨ c == 0) ∧ h + c <= p)%Q.
Proof.
  intros [Hz|Hz] Hh Hc H1 H2; rewrite Hz in H1, H2; split; lra.
Qed.

(** ** The selection of the sidebar *)

Lemma append_if_optl checked name l : append_if checked name l = (l ++ optl checked [name])%list.
Proof. destruct checked; [done | by rewrite app_nil_r]. Qed.

Lemma selected_devices_closed ui :
  selected_devices ui
  = (optl (cb_pv ui) ["pv"] ++ optl (cb_grid ui) ["grid"]
     ++ optl (cb_electric_boiler ui) ["electric_boiler"]
     ++ optl (cb_ashp ui) ["ashp"] ++ optl (cb_gshp_shallow ui) ["gshp_shallow"]
     ++ optl (cb_gshp_deep ui) ["gshp_deep"]
     ++ optl (cb_electrolyzer ui) ["electrolyzer"]
     ++ optl (cb_fuel_cell ui) ["fuel_cell"]
     ++ optl (cb_battery ui) ["battery"] ++ optl (cb_h2_storage ui) ["h2_storage"])%list.
Proof.
  unfold selected_devices. rewrite !append_if_optl. cbn [app].
  by rewrite <- !app_assoc.
Qed.

Lemma mem_app (k : string) (l1 l2 : list string) :
  bool_decide (k ∈ (l1 ++ l2)%list) = bool_decide (k ∈ l1) || bool_decide (k ∈ l2).
Proof.
  apply eq_true_iff_eq.
  rewrite orb_true_iff, !bool_decide_eq_true, elem_of_app. done.
Qed.

Lemma mem_optl (k : string) b (l : list string) :
  bool_decide (k ∈ optl b l) = b && bool_decide (k ∈ l).
Proof.
  destruct b; cbn [optl andb]; [done|].
  apply bool_decide_eq_false_2. apply not_elem_of_nil.
Qed.

(** Membership of a concrete identifier in the selection of the sidebar. *)
Ltac eval_mem :=
  rewrite ?selected_devices_closed, ?mem_app, ?mem_optl;
  repeat match goal with
         | |- context [bool_decide (?x ∈ ?y :: ?l)] =>
             let v := eval vm_compute in (bool_decide (x ∈ y :: l)) in
             change (bool_decide (x ∈ y :: l)) with v
         end;
  rewrite ?andb_false_r, ?andb_true_r, ?orb_false_r, ?orb_false_l;
  cbn [andb orb].

Lemma selected_devices_mem ui :
  bool_decide ("pv" ∈ selected_devices ui) = cb_pv ui
  ∧ bool_decide ("grid" ∈ selected_devices ui) = cb_grid ui
  ∧ bool_decide ("electric_boiler" ∈ selected_devices ui) = cb_electric_boiler ui
  ∧ bool_decide ("ashp" ∈ selected_devices ui) = cb_ashp ui
  ∧ bool_decide ("gshp_shallow" ∈ selected_devices ui) = cb_gshp_shallow ui
  ∧ bool_decide ("gshp_deep" ∈ selected_devices ui) = cb_gshp_deep ui
  ∧ bool_decide ("electrolyzer" ∈ selected_devices ui) = cb_electrolyzer ui
  ∧ bool_decide ("fuel_cell" ∈ selected_devices ui) = cb_fuel_cell ui
  ∧ bool_decide ("battery" ∈ selected_devices ui) = cb_battery ui
  ∧ bool_decide ("h2_storage" ∈ selected_devices ui) = cb_h2_storage ui.
Proof. repeat split; eval_mem; reflexivity. Qed.


(** ** The columns of the plots *)

Lemma frame_not_empty sns columns (name : string) :
  sns ≠ [] → name ∈ columns → frame_empty sns columns = false.
Proof.
  intros Hs Hc. unfold frame_empty.
  rewrite (bool_decide_eq_false_2 _ Hs). cbn.
  apply bool_decide_eq_false_2. intros ->. by apply elem_of_nil in Hc.
Qed.

Lemma mem_filter_columns (name : string) (columns cands : list string) :
  name ∈ columns →
  bool_decide (name ∈ filter (λ c, c ∈ columns) cands) = bool_decide (name ∈ cands).
Proof.
  intros Hc. apply bool_decide_ext. rewrite list_elem_of_filter. tauto.
Qed.

Lemma elec_cons_cols_mem sns columns name :
  sns ≠ [] → name ∈ columns →
  bool_decide (name ∈ elec_cons_cols (frame_empty sns columns) columns)
  = bool_decide (name ∈ app ["electrolyzer"; "electric_boiler"] hp_cols).
Proof.
  intros Hs Hc. unfold elec_cons_cols.
  rewrite (frame_not_empty _ _ _ Hs Hc). cbn [negb].
  by apply mem_filter_columns.
Qed.

Lemma heat_cols_mem sns columns name :
  sns ≠ [] → name ∈ columns →
  bool_decide (name ∈ heat_cols (frame_empty sns columns) columns)
  = bool_decide (name ∈ app ["electric_boiler"] hp_heating_cols).
Proof.
  intros Hs Hc. unfold heat_cols.
  rewrite (frame_not_empty _ _ _ Hs Hc). cbn [negb].
  by apply mem_filter_columns.
Qed.

Lemma cool_cols_mem sns columns name :
  sns ≠ [] → name ∈ columns →
  bool_decide (name ∈ cool_cols (frame_empty sns columns) columns)
  = bool_decide (name ∈ hp_cooling_cols).
Proof.
  intros Hs Hc. unfold cool_cols.
  rewrite (frame_not_empty _ _ _ Hs Hc). cbn [negb andb]. cbv zeta.
  rewrite <- (mem_filter_columns name columns hp_cooling_cols Hc).
  destruct (decide (filter (λ c, c ∈ columns) hp_cooling_cols = [])) as [Hnil|Hnil].
  - rewrite (bool_decide_eq_true_2 _ Hnil). cbn [negb]. by rewrite Hnil.
  - by rewrite (bool_decide_eq_false_2 _ Hnil).
Qed.

(** ** The diagram *)

Lemma same_edges_elem l1 l2 : same_edges l1 l2 = true → ∀ e, e ∈ l1 ↔ e ∈ l2.
Proof.
  unfold same_edges. rewrite andb_true_iff, !forallb_forall.
  intros [H1 H2] e. split; intros He.
  - apply list_elem_of_In, H1 in He. by apply bool_decide_eq_true in He.
  - apply list_elem_of_In, H2 in He. by apply bool_decide_eq_true in He.
Qed.

(** The ten membership tests of a selection, as unknown booleans. *)
Ltac abstract_selection sel :=
  unfold selected, all_devices, count_if;
  repeat match goal with
         | |- context [bool_decide (?x ∈ sel)] =>
             generalize (bool_decide (x ∈ sel)); intros ?
         end.

Lemma flat_map_optl {A B} (f : A → list B) b l :
  flat_map f (optl b l) = optl b (flat_map f l).
Proof. by destruct b. Qed.

(** The edges of a network whose tables are known row by row. *)
Ltac eval_edges :=
  unfold network_edges;
  cbn [generators loads links storage_units];
  rewrite ?flat_map_app, ?flat_map_optl;
  repeat match goal with
         | |- context [flat_map ?f (?r :: ?l)] =>
             let v := eval vm_compute in (flat_map f (r :: l)) in
             replace (flat_map f (r :: l)) with v by (vm_compute; reflexivity)
         end.

(** * The topology builder *)




(** C10. Called without a selection ([components] is [None]) on a
    configuration that supplies the series it reads, with every component
    accepted by the library, [build_model] instantiates both generators
    grid and pv and all eight optional devices: electric_boiler, the heating
    and cooling links of ashp, gshp_shallow and gshp_deep, electrolyzer,
    fuel_cell, battery and h2_storage.  Called with the empty selection it
    creates no generator, link or storage unit, whatever the configuration
    and the library. *)
Theorem build_model_default_portfolio v d sns :
  (missing_series d None = None →
   accepted v (requested d None sns) →
   ∃ n', run_build v d None sns = (Ok (), n')
     ∧ index (generators n') = ["grid"; "pv"]
     ∧ index (links n')
       = ["electric_boiler"; "ashp_heating"; "ashp_cooling";
          "gshp_shallow_heating"; "gshp_shallow_cooling";
          "gshp_deep_heating"; "gshp_deep_cooling"; "electrolyzer"; "fuel_cell"]
     ∧ index (storage_units n') = ["battery"; "h2_storage"])
  ∧ (let n0 := (run_build v d (Some []) sns).2 in
     generators n0 = [] ∧ links n0 = [] ∧ storage_units n0 = []).
Proof.
  split.
  - intros H Hacc. rewrite (run_build_returns _ _ _ _ H Hacc).
    eexists. split; [reflexivity|].
    need_series H. destruct Hk as [Hk|Hk]; [discriminate|].
    unfold requested. build_run. repeat split; reflexivity.
  - assert (Hnone : devices_satisfy (λ _ _, False) (run_build v d (Some []) sns).2).
    { unfold run_build.
      assert (I0 : devices_satisfy (λ _ _, False) (empty_network sns))
        by (intros ? ? Hin; cbn in Hin; by apply elem_of_nil in Hin).
      revert I0. generalize (empty_network sns).
      change (preserves (devices_satisfy (λ _ _, False)) (build_model v d (Some []))).
      unfold build_model, selected, all_devices, hp_types. cbn [for_].
      repeat first
        [ apply preserves_bind; [|intros ?]
        | apply preserves_ret
        | apply preserves_getitem
        | apply preserves_when_false; reflexivity
        | apply preserves_when
        | apply preserves_add_other; tauto ]. }
    cbv zeta. unfold devices_satisfy in Hnone.
    destruct (generators _) as [|[g a] gs] eqn:Eg;
      [|destruct (Hnone g a); rewrite !elem_of_app; left; apply list_elem_of_here].
    destruct (links _) as [|[l a] ls] eqn:El;
      [|destruct (Hnone l a); rewrite !elem_of_app; right; left; apply list_elem_of_here].
    destruct (storage_units _) as [|[u a] us] eqn:Eu;
      [|destruct (Hnone u a); rewrite !elem_of_app; right; right; apply list_elem_of_here].
    done.
Qed.

(** Witness of [build_model_default_portfolio] on the demo configuration. *)
Lemma build_model_default_portfolio_witness :
  missing_series demo_data None = None
  ∧ accepted check_lengths (requested demo_data None [0; 1]%Z)
  ∧ ∃ n', run_build check_lengths demo_data None [0; 1]%Z = (Ok (), n')
      ∧ index (generators n') = ["grid"; "pv"].
Proof.
  assert (Hacc : accepted check_lengths (requested demo_data None [0; 1]%Z))
    by (apply check_lengths_accepted; vm_compute; reflexivity).
  split; [reflexivity|]. split; [exact Hacc|].
  destruct (proj1 (build_model_default_portfolio check_lengths demo_data [0; 1]%Z)
              eq_refl Hacc) as (n' & Hrun & Hgen & _).
  exists n'. split; [exact Hrun | exact Hgen].
Defined.

(** C4. On a configuration that supplies the series it reads, with every
    component accepted by the library, [build_model] returns and every
    selected converter is wired as the device table says: the one link
    called electric_boiler goes from electricity to heat, the one called
    electrolyzer from electricity to hydrogen, and the one called fuel_cell
    from hydrogen to electricity ([bus1], with [efficiency]) and to heat
    ([bus2], with [efficiency2]). *)
Theorem build_model_converter_wiring v d comps sns :
  missing_series d comps = None →
  accepted v (requested d comps sns) →
  ∃ n', run_build v d comps sns = (Ok (), n')
    ∧ ("electric_boiler" ∈ all_devices comps →
       named "electric_boiler" (links n')
       = [("electric_boiler",
           [("bus0", VStr "electricity"); ("bus1", VStr "heat");
            ("p_nom", dict_get d "boiler_p_nom" (VInt 20));
            ("efficiency", dict_get d "boiler_eff" (VFloat 0.98))])])
    ∧ ("electrolyzer" ∈ all_devices comps →
       named "electrolyzer" (links n')
       = [("electrolyzer",
           [("bus0", VStr "electricity"); ("bus1", VStr "hydrogen");
            ("p_nom", dict_get d "ely_p_nom" (VInt 50));
            ("efficiency", dict_get d "ely_eff" (VFloat 0.75))])])
    ∧ ("fuel_cell" ∈ all_devices comps →
       named "fuel_cell" (links n')
       = [("fuel_cell",
           [("bus0", VStr "hydrogen"); ("bus1", VStr "electricity");
            ("bus2", VStr "heat");
            ("p_nom", dict_get d "fc_p_nom" (VInt 50));
            ("efficiency", dict_get d "fc_eff_elec" (VFloat 0.45));
            ("efficiency2", dict_get d "fc_eff_heat" (VFloat 0.40))])]).
Proof.
  intros H Hacc. rewrite (run_build_returns _ _ _ _ H Hacc).
  eexists. split; [reflexivity|].
  need_series H. unfold requested. build_run. cbn [snd links].
  repeat split; intros Hsel; apply (bool_decide_eq_true_2 _) in Hsel;
    rewrite Hsel; pick_rows; reflexivity.
Qed.

(** Witness of [build_model_converter_wiring]: the fuel cell alone. *)
Lemma build_model_converter_wiring_witness :
  missing_series demo_data (Some ["fuel_cell"]) = None
  ∧ accepted check_lengths (requested demo_data (Some ["fuel_cell"]) [0; 1]%Z)
  ∧ ∃ n', run_build check_lengths demo_data (Some ["fuel_cell"]) [0; 1]%Z = (Ok (), n')
      ∧ length (named "fuel_cell" (links n')) = 1%nat.
Proof.
  assert (Hacc : accepted check_lengths (requested demo_data (Some ["fuel_cell"]) [0; 1]%Z))
    by (apply check_lengths_accepted; vm_compute; reflexivity).
  split; [reflexivity|]. split; [exact Hacc|].
  destruct (build_model_converter_wiring check_lengths demo_data (Some ["fuel_cell"])
              [0; 1]%Z eq_refl Hacc)
    as (n' & Hrun & _ & _ & Hfc).
  exists n'. split; [exact Hrun|].
  rewrite Hfc; [reflexivity | by apply list_elem_of_singleton].
Defined.




(** C5, as the code has it. Whatever the configuration, the selection and
    the library, and whether [build_model] returns or raises, every
    generator, link and storage unit it has put into the network other than
    the grid has its capacity [p_nom] from the configuration (or the default
    written in the call) and is not marked extendable; the grid generator is
    created with [p_nom_extendable=True] and without a [p_nom], so its
    capacity is left to the optimiser; no device is given a
    [capital_cost]. *)
Theorem build_model_capacities v d comps sns :
  ∀ name a,
    (name, a) ∈ (generators (run_build v d comps sns).2
                 ++ links (run_build v d comps sns).2
                 ++ storage_units (run_build v d comps sns).2)%list →
    assoc "capital_cost" a = None
    ∧ if decide (name = "grid")
      then assoc "p_nom_extendable" a = Some (VBool true)
           ∧ assoc "p_nom" a = None
      else assoc "p_nom_extendable" a = None
           ∧ ∃ key dflt, assoc name p_nom_params = Some (key, dflt)
               ∧ assoc "p_nom" a = Some (dict_get d key dflt).
Proof.
  change (devices_satisfy (fixed_capacity d) (run_build v d comps sns).2).
  unfold run_build.
  assert (I0 : devices_satisfy (fixed_capacity d) (empty_network sns))
    by (intros ? ? Hin; cbn in Hin; by apply elem_of_nil in Hin).
  revert I0. generalize (empty_network sns).
  change (preserves (devices_satisfy (fixed_capacity d)) (build_model v d comps)).
  unfold build_model, hp_types. cbn [for_ String.append].
  repeat first
    [ apply preserves_bind; [|intros ?]
    | apply preserves_ret
    | apply preserves_getitem
    | apply preserves_when
    | apply preserves_add_other; tauto
    | apply preserves_add_device; unfold fixed_capacity;
      (split; [reflexivity|]); cbn;
      (split; [reflexivity|]); try reflexivity;
      eexists _, _; split; reflexivity ].
Qed.

(** Witness of [build_model_capacities]: the photovoltaic generator of the
    default portfolio. *)
Lemma build_model_capacities_witness :
  let pv := [("bus", VStr "electricity"); ("p_nom", VInt 100);
             ("p_max_pu", VList [VFloat 0.5; VFloat 0]);
             ("marginal_cost", VFloat 0.01)] in
  ("pv", pv) ∈ (generators (run_build check_lengths demo_data None [0; 1]%Z).2
                ++ links (run_build check_lengths demo_data None [0; 1]%Z).2
                ++ storage_units (run_build check_lengths demo_data None [0; 1]%Z).2)%list
  ∧ assoc "capital_cost" pv = None
  ∧ assoc "p_nom_extendable" pv = None.
Proof.
  intros pv.
  assert (Hin : ("pv", pv)
                ∈ (generators (run_build check_lengths demo_data None [0; 1]%Z).2
                   ++ links (run_build check_lengths demo_data None [0; 1]%Z).2
                   ++ storage_units (run_build check_lengths demo_data None [0; 1]%Z).2)%list).
  { apply elem_of_app. left. apply list_elem_of_further, list_elem_of_here. }
  split; [exact Hin|].
  destruct (build_model_capacities check_lengths demo_data None [0; 1]%Z "pv" pv Hin)
    as (Hcost & Hext & _).
  split; [exact Hcost | exact Hext].
Defined.

(** C5 as stated fails: the grid generator is marked extendable and has no
    fixed capacity. *)
Lemma grid_is_extendable :
  let n' := (run_build check_lengths demo_data (Some ["grid"]) [0; 1]%Z).2 in
  (run_build check_lengths demo_data (Some ["grid"]) [0; 1]%Z).1 = Ok ()
  ∧ at_ (generators n') "grid" "p_nom_extendable" = Some (VBool true)
  ∧ at_ (generators n') "grid" "p_nom" = None.
Proof. vm_compute. repeat split; reflexivity. Qed.

(** C8, as the code has it. [build_model] validates nothing itself and
    raises no configuration error of its own.  Whatever it raises is the
    [KeyError] of a key the configuration lacks or the exception the
    library raised in [n.add].  When the library accepts every component it
    is handed, the method raises [KeyError] for the first series it reads
    with [data[...]] that is missing (pv_pu when pv is selected, then
    elec_load, heat_load, cool_load) and returns in every other case.  It
    returns only if no such series is missing and every component of the
    network was accepted by the library: a series the library refuses, as
    PyPSA refuses one whose length is not the number of snapshots, makes
    [build_model] raise the library's exception.  The exception is raised
    inside [build_model], before the caller can reach [solve]. *)
Theorem build_model_failures v d comps sns :
  (∀ e, (run_build v d comps sns).1 = Raise e →
        (∃ k, e = KeyError k ∧ dict_has d k = false)
        ∨ (∃ n c name kwargs, v n c name kwargs = Some e))
  ∧ (accepted v (requested d comps sns) →
     (run_build v d comps sns).1
     = match missing_series d comps with
       | Some k => Raise (KeyError k)
       | None => Ok ()
       end)
  ∧ (∀ n', run_build v d comps sns = (Ok (), n') →
           missing_series d comps = None
           ∧ ∀ c, validated v sns c (static n' c)).
Proof.
  split; [|split].
  - intros e He. unfold run_build in He.
    destruct (build_model v d comps (empty_network sns)) as [r n'] eqn:E.
    cbn in He. subst r. revert E.
    generalize (empty_network sns) as n0. intros n0 E.
    change (build_error v d e).
    eapply (raises_only_elim (build_error v d) (build_model v d comps)); [|exact E].
    unfold build_model.
    repeat first
      [ apply raises_bind; [|intros ?]
      | apply raises_ret
      | apply raises_getitem
      | apply raises_add
      | apply raises_when
      | apply raises_for; intros [? [? ?]] ].
  - intros Hacc. rewrite (run_build_accepted _ _ _ _ Hacc). apply run_build_lenient.
  - intros n' Hrun. destruct (run_build_inv _ _ _ _ _ Hrun) as (Hmiss & _ & Hval).
    by split.
Qed.

(** Witness of [build_model_failures]: three entries of electricity demand
    for two snapshots, and no heat demand.  The library's length check
    refuses the first load, so the [KeyError] of the missing heat demand is
    never reached; what is raised is the library's [ValueError]. *)
Lemma build_model_failures_witness :
  (run_build check_lengths long_elec_load (Some []) [0; 1]%Z).1
  = Raise (ValueError "p_set")
  ∧ missing_series long_elec_load (Some []) = Some "heat_load"
  ∧ ∃ n c name kwargs, check_lengths n c name kwargs = Some (ValueError "p_set").
Proof.
  split; [reflexivity|]. split; [reflexivity|].
  destruct (proj1 (build_model_failures check_lengths long_elec_load (Some []) [0; 1]%Z)
              (ValueError "p_set") eq_refl) as [(k & Hk & _) | Hlib].
  - discriminate Hk.
  - exact Hlib.
Defined.

(** C8 as stated fails: with an empty configuration the method raises
    [KeyError('elec_load')], not a configuration error. *)
Lemma missing_series_is_key_error :
  (run_build check_lengths ∅ (Some []) []).1 = Raise (KeyError "elec_load")
  ∧ (run_build check_lengths ∅ (Some []) []).1 ≠ Raise ConfigurationError.
Proof. split; [reflexivity | discriminate]. Qed.

(** * The closure [extra_functionality] *)

(** C1. For a model handed over by the library (the dispatch array of the
    links is there and labelled by the links), the closure returns, and for
    every heat-pump pair present in the network it has added a binary mode
    variable over the snapshots and, under the pair's prefix, exactly three
    constraints, which at every snapshot say [l_heat + l_cool <= p_nom],
    [l_heat <= z * p_nom] and [l_cool <= (1 - z) * p_nom], with [p_nom] the
    capacity of the heating link.  The problem gains a binary variable
    exactly when some pair is present; for a network made by [build_model]
    and a linear problem of the library, the result is mixed-integer
    exactly when a heat-pump device was selected. *)
Theorem extra_functionality_heat_pumps n sns m :
  link_p_ok n m →
  ∃ m', extra_functionality n sns m = (Ok (), m')
    ∧ (∀ prefix, prefix ∈ hp_prefixes → family_present n prefix = true →
         (prefix ++ "_mode", mkVar [Snapshot sns] true) ∈ variables m'
         ∧ ∃ c_share c_heat c_cool,
             starting (prefix ++ "_") (drop (length (constraints m)) (constraints m'))
             = [(prefix ++ "_capacity_sharing", c_share);
                (prefix ++ "_heating_exclusion", c_heat);
                (prefix ++ "_cooling_exclusion", c_cool)]
             ∧ ∀ (ρ : assignment) t p_nom,
                 num (family_p_nom n prefix) = Some p_nom →
                 let l_heat := ρ "Link-p" (Some (prefix ++ "_heating")) t in
                 let l_cool := ρ "Link-p" (Some (prefix ++ "_cooling")) t in
                 let z := ρ (prefix ++ "_mode") None t in
                 (holds ρ t c_share ↔ (l_heat + l_cool <= p_nom)%Q)
                 ∧ (holds ρ t c_heat ↔ (l_heat <= z * p_nom)%Q)
                 ∧ (holds ρ t c_cool ↔ (l_cool <= (1 - z) * p_nom)%Q))
    ∧ is_mip m' = is_mip m || existsb (family_present n) hp_prefixes
    ∧ (∀ v d comps sns0,
         run_build v d comps sns0 = (Ok (), n) →
         is_mip m = false →
         is_mip m' = existsb (λ k, bool_decide (k ∈ all_devices comps)) hp_prefixes).
Proof.
  intros Hok. eexists. split; [by apply extra_functionality_run|].
  cbn [variables constraints].
  assert (Hmip : is_mip
      (mkModel
         (variables m ++ flat_map (λ p, optl (family_present n p) [family_variable sns p])
                           hp_prefixes)
         (constraints m ++ flat_map (λ p, optl (family_present n p) (family_constraints n p))
                             hp_prefixes))
    = is_mip m || existsb (family_present n) hp_prefixes).
  { rewrite (is_mip_app _ _ _ (constraints m)). destruct m as [vs cs]. f_equal.
    cbn. by destruct (family_present n "ashp"), (family_present n "gshp_shallow"),
              (family_present n "gshp_deep"). }
  split; [|split; [exact Hmip|]].
  - intros prefix Hp Hpres. split.
    + apply elem_of_app. right. apply list_elem_of_In, in_flat_map.
      exists prefix. split; [by apply list_elem_of_In|].
      rewrite Hpres. by left.
    + rewrite drop_app_length. cbn [flat_map hp_prefixes].
      unfold hp_prefixes in Hp.
      repeat (apply elem_of_cons in Hp as [->|Hp]); [| | |by apply elem_of_nil in Hp].
      all: rewrite Hpres; pick_family.
      all: eexists _, _, _; split; [reflexivity|].
      all: intros ρ t p_nom Hnum; cbn zeta.
      all: (split; [|split]).
      all: (erewrite holds_le; [| cbn; rewrite ?Hnum; cbn; reflexivity ..]).
      all: first [reflexivity | exact (Qle_sub_0 _ _)].
  - intros v d comps sns0 Hrun Hlp.
    destruct (run_build_inv _ _ _ _ _ Hrun) as (Hmiss & -> & _).
    rewrite Hmip, Hlp. cbn [orb hp_prefixes existsb].
    by rewrite !built_family_present by first [assumption | repeat constructor].
Qed.

(** Witness of [extra_functionality_heat_pumps]: the network built for the
    selection [ashp], whose pair has the capacity 500; with every flow at
    zero the capacity-sharing constraint holds. *)
Lemma extra_functionality_heat_pumps_witness :
  let n0 := (run_build check_lengths demo_data (Some ["ashp"]) [0; 1]%Z).2 in
  link_p_ok n0 (dispatch_model n0)
  ∧ "ashp" ∈ hp_prefixes
  ∧ family_present n0 "ashp" = true
  ∧ num (family_p_nom n0 "ashp") = Some (inject_Z 500)
  ∧ ∃ m', extra_functionality n0 [0; 1]%Z (dispatch_model n0) = (Ok (), m')
      ∧ ("ashp_mode", mkVar [Snapshot [0; 1]%Z] true) ∈ variables m'
      ∧ is_mip m' = true
      ∧ ∃ c_share c_heat c_cool,
          starting "ashp_" (constraints m')
          = [("ashp_capacity_sharing", c_share);
             ("ashp_heating_exclusion", c_heat);
             ("ashp_cooling_exclusion", c_cool)]
          ∧ holds (λ _ _ _, 0%Q) 0 c_share.
Proof.
  intros n0.
  assert (Hp : "ashp" ∈ hp_prefixes) by repeat constructor.
  split; [apply dispatch_model_ok|]. split; [exact Hp|].
  split; [reflexivity|]. split; [reflexivity|].
  destruct (extra_functionality_heat_pumps n0 [0; 1]%Z (dispatch_model n0)
              (dispatch_model_ok n0)) as (m' & Hrun & Hfam & Hmip & _).
  destruct (Hfam "ashp" Hp eq_refl) as (Hvar & c_share & c_heat & c_cool & Hrows & Hmean).
  exists m'. split; [exact Hrun|]. split; [exact Hvar|].
  split; [rewrite Hmip; reflexivity|].
  exists c_share, c_heat, c_cool. split; [exact Hrows|].
  apply (proj1 (Hmean (λ _ _ _, 0%Q) 0%Z (inject_Z 500) eq_refl)). discriminate.
Defined.




(** * The solve loop *)


(** C7, as the code has it. [solve] always returns a boolean and never
    raises.  When none of gurobi, copt and glpk answers with status ['ok'],
    it has called them in this order and then the default solver once; if
    that call raises, [solve] returns [False] and the reason is the last
    line printed: it is not part of the value returned. *)
Theorem solve_reports_failure create_model backend self w :
  ∃ b w', solve create_model backend self w = (Ok b, w')
    ∧ ((∀ s, s ∈ ["gurobi"; "copt"; "glpk"] →
             optimal (answer create_model backend (n self) (Some s)) = false) →
       calls w' = (calls w ++ [Some "gurobi"; Some "copt"; Some "glpk"; None])%list
       ∧ ∀ e, answer create_model backend (n self) None = Raise e →
              b = false
              ∧ last (stdout w')
                = Some ("All optimization attempts failed: " ++ exn_str e)).
Proof.
  unfold solve.
  destruct (solve_loop_run create_model backend (n self) ["gurobi"; "copt"; "glpk"] w)
    as [out Hloop].
  unfold mbind at 1, M_bind at 1. rewrite Hloop.
  destruct (existsb _ _) eqn:Hany; cbn [negb].
  - eexists _, _. split; [reflexivity|]. intros Hfail.
    cbn [existsb] in Hany.
    rewrite !Hfail in Hany by (repeat constructor). discriminate Hany.
  - unfold try_except, mbind, M_bind, print, optimize. cbn [stdout calls].
    destruct (answer create_model backend (n self) None) as [v|e] eqn:Hdef;
      cbn [stdout calls].
    + eexists _, _. split; [reflexivity|]. intros Hfail. cbn [calls tried].
      rewrite !Hfail by (repeat constructor). cbn [fmap list_fmap].
      split; [by rewrite <- app_assoc | intros e He; discriminate He].
    + eexists _, _. split; [reflexivity|]. intros Hfail. cbn [calls stdout tried].
      rewrite !Hfail by (repeat constructor). cbn [fmap list_fmap].
      split; [by rewrite <- app_assoc|].
      intros e' He. injection He as <-. split; [reflexivity|].
      by rewrite last_snoc.
Qed.

(** Witness of [solve_reports_failure]: every call raises. *)
Lemma solve_reports_failure_witness :
  (∀ s, s ∈ ["gurobi"; "copt"; "glpk"] →
        optimal (answer dispatch_model (always_raising "license expired")
                   (n demo_model) (Some s)) = false)
  ∧ ∃ b w', solve dispatch_model (always_raising "license expired") demo_model console
            = (Ok b, w')
      ∧ calls w' = [Some "gurobi"; Some "copt"; Some "glpk"; None].
Proof.
  assert (Hfail : ∀ s, s ∈ ["gurobi"; "copt"; "glpk"] →
            optimal (answer dispatch_model (always_raising "license expired")
                       (n demo_model) (Some s)) = false) by (intros s _; reflexivity).
  split; [exact Hfail|].
  destruct (solve_reports_failure dispatch_model (always_raising "license expired")
              demo_model console) as (b & w' & Hrun & Hspec).
  exists b, w'. split; [exact Hrun|]. exact (proj1 (Hspec Hfail)).
Defined.

(** C7 as stated fails: two runs in which every solver fails, for different
    reasons, return the same value [False]; the reasons are only in what
    was printed. *)
Lemma failure_reasons_are_not_returned :
  let r1 := solve dispatch_model (always_raising "license expired") demo_model console in
  let r2 := solve dispatch_model (always_raising "out of memory") demo_model console in
  r1.1 = Ok false ∧ r2.1 = Ok false ∧ r1.1 = r2.1 ∧ stdout r1.2 ≠ stdout r2.2.
Proof. vm_compute. repeat split; (reflexivity || discriminate). Qed.

(** * Further properties of the builder *)

(** X1. [__init__] makes an empty network whose snapshots are exactly the
    hours [0 <= t < hours], each once, with [hours] the entry of the
    configuration or 24 when there is none; when that number is not
    positive there is no snapshot to set and the constructor raises. *)
Theorem init_snapshots d h :
  dict_get d "hours" (VInt 24) = VInt h →
  ((0 < h)%Z →
   ∃ self, init d = Ok self
     ∧ data self = d ∧ hours self = h
     ∧ (∀ t, t ∈ snapshots (n self) ↔ (0 ≤ t < h)%Z)
     ∧ NoDup (snapshots (n self))
     ∧ n self = empty_network (snapshots (n self)))
  ∧ ((h ≤ 0)%Z → ∃ what, init d = Raise (ValueError what)).
Proof.
  intros Hh. unfold init. rewrite Hh.
  assert (Hin : ∀ t, t ∈ range h ↔ (0 ≤ t < h)%Z).
  { intros t. unfold range. rewrite list_elem_of_fmap. split.
    - intros (i & -> & Hi). apply elem_of_seq in Hi. lia.
    - intros Ht. exists (Z.to_nat t). split; [lia|]. apply elem_of_seq. lia. }
  split.
  - intros Hpos. unfold set_snapshots.
    destruct (range h) as [|t0 sns] eqn:E.
    { assert (H0 : 0%Z ∈ @nil Z) by (apply Hin; lia). by apply elem_of_nil in H0. }
    eexists. split; [reflexivity|].
    cbn [data hours n empty_network snapshots].
    split; [done|]. split; [done|]. split; [exact Hin|]. split; [|done].
    rewrite <- E. unfold range. apply NoDup_fmap; [apply _ | apply NoDup_seq].
  - intros Hneg. unfold set_snapshots.
    destruct (range h) as [|t0 sns] eqn:E; [by eexists|].
    assert (H0 : t0 ∈ t0 :: sns) by apply list_elem_of_here.
    apply Hin in H0. lia.
Qed.

(** Witness of [init_snapshots]: a configuration without [hours]. *)
Lemma init_snapshots_witness :
  dict_get ∅ "hours" (VInt 24) = VInt 24
  ∧ (0 < 24)%Z
  ∧ ∃ self, init ∅ = Ok self ∧ length (snapshots (n self)) = 24%nat.
Proof.
  assert (Hh : dict_get ∅ "hours" (VInt 24) = VInt 24) by reflexivity.
  assert (Hpos : (0 < 24)%Z) by lia.
  split; [exact Hh|]. split; [exact Hpos|].
  destruct (proj1 (init_snapshots ∅ 24 Hh) Hpos) as (self & Hinit & _).
  exists self. split; [exact Hinit|].
  injection Hinit as <-. reflexivity.
Defined.

(** X2. [build_model] reads the configuration only under the keys of
    [config_keys]: two configurations that agree on them give the same run,
    so an entry under any other key (such as [hp_p_nom]) is ignored. *)
Theorem build_model_reads_config_keys v d1 d2 comps net :
  (∀ k, k ∈ config_keys → d1 !! k = d2 !! k) →
  build_model v d1 comps net = build_model v d2 comps net.
Proof.
  intros H. unfold build_model, hp_types. cbn [for_ String.append].
  unfold dict_get, dict_has, dict_getitem.
  rewrite !H by (repeat constructor). reflexivity.
Qed.

(** Witness of [build_model_reads_config_keys]: the key [hp_p_nom] does not
    reach the heat pumps. *)
Lemma build_model_reads_config_keys_witness :
  run_build check_lengths (<["hp_p_nom" := VInt 7]> demo_data) None [0; 1]%Z
  = run_build check_lengths demo_data None [0; 1]%Z.
Proof.
  apply build_model_reads_config_keys. intros k Hk.
  apply lookup_insert_ne. intros <-. revert Hk. apply (bool_decide_unpack _).
  by vm_compute.
Defined.

(** X3. The selection is used only through membership tests on the ten
    identifiers of [device_ids]: two lists with the same members among them
    give the same run, whatever their order, repetitions or other entries. *)
Theorem build_model_selection_by_membership v d l1 l2 net :
  (∀ k, k ∈ device_ids → k ∈ l1 ↔ k ∈ l2) →
  build_model v d (Some l1) net = build_model v d (Some l2) net.
Proof.
  intros H. unfold build_model, hp_types, selected, all_devices.
  cbn [for_ String.append].
  assert (Hb : ∀ k, k ∈ device_ids → bool_decide (k ∈ l1) = bool_decide (k ∈ l2))
    by (intros k Hk; apply bool_decide_ext; by apply H).
  rewrite !Hb by (repeat constructor). reflexivity.
Qed.

(** Witness of [build_model_selection_by_membership]: order, a repetition
    and an unknown identifier make no difference. *)
Lemma build_model_selection_by_membership_witness :
  run_build check_lengths demo_data (Some ["ashp"; "grid"]) [0; 1]%Z
  = run_build check_lengths demo_data (Some ["grid"; "heat_pump"; "ashp"; "grid"]) [0; 1]%Z.
Proof.
  apply build_model_selection_by_membership. intros k Hk.
  unfold device_ids in Hk.
  repeat (apply elem_of_cons in Hk as [->|Hk]); [..|by apply elem_of_nil in Hk];
    split; intros Hin; revert Hin; apply (bool_decide_unpack _); by vm_compute.
Defined.

(** X4. In the network [build_model] returns every generator, load, link
    and storage unit is attached to at least one bus, and every bus it
    names, under [bus], [bus0], [bus1] or [bus2], is one of the four buses
    of the network. *)
Theorem build_model_no_dangling_bus v d comps sns n' :
  run_build v d comps sns = (Ok (), n') →
  ∀ name a,
    (name, a) ∈ (generators n' ++ loads n' ++ links n' ++ storage_units n')%list →
    bus_refs a ≠ []
    ∧ ∀ b, b ∈ bus_refs a → ∃ bus, b = VStr bus ∧ bus ∈ index (buses n').
Proof.
  intros Hrun. destruct (run_build_inv _ _ _ _ _ Hrun) as (H & -> & _).
  need_series H. unfold requested. build_run.
  cbn [snd buses generators loads links storage_units]. intros name a Hin.
  split_rows Hin; injection Hin as -> ->;
    match goal with
    | |- context [bus_refs ?a] =>
        let r := eval vm_compute in (bus_refs a) in change (bus_refs a) with r
    end;
    (split; [discriminate|]); intros b Hb;
    repeat (apply elem_of_cons in Hb as [->|Hb]); try (by apply elem_of_nil in Hb);
    eexists; (split; [reflexivity | repeat constructor]).
Qed.

(** Witness of [build_model_no_dangling_bus]: the fuel cell of the default
    portfolio names three buses. *)
Lemma build_model_no_dangling_bus_witness :
  let n' := (run_build check_lengths demo_data None [0; 1]%Z).2 in
  run_build check_lengths demo_data None [0; 1]%Z = (Ok (), n')
  ∧ ∀ name a, (name, a) ∈ links n' → bus_refs a ≠ [].
Proof.
  intros n'.
  assert (Hrun : run_build check_lengths demo_data None [0; 1]%Z = (Ok (), n'))
    by (vm_compute; reflexivity).
  split; [exact Hrun|].
  intros name a Hin.
  apply (build_model_no_dangling_bus check_lengths demo_data None [0; 1]%Z n' Hrun name a).
  apply elem_of_app. right. apply elem_of_app. right. apply elem_of_app. by left.
Defined.

(** X5. The storage units are wired and parametrised as written: in the
    network [build_model] returns, the one row called battery is on the
    electricity bus and the one called h2_storage on the hydrogen bus, both
    with a cyclic state of charge; power and duration come from the
    configuration, whereas the two efficiencies of the hydrogen storage
    (0.98) and both marginal costs (0.01 and 0.005) are constants. *)
Theorem build_model_storage_units v d comps sns n' :
  run_build v d comps sns = (Ok (), n') →
  ("battery" ∈ all_devices comps →
   named "battery" (storage_units n')
   = [("battery",
       [("bus", VStr "electricity");
        ("p_nom", dict_get d "bat_p_nom" (VInt 30));
        ("max_hours", dict_get d "bat_hours" (VInt 4));
        ("efficiency_store", dict_get d "bat_eff_store" (VFloat 0.9));
        ("efficiency_dispatch", dict_get d "bat_eff_dispatch" (VFloat 0.9));
        ("cyclic_state_of_charge", VBool true);
        ("marginal_cost", VFloat 0.01)])])
  ∧ ("h2_storage" ∈ all_devices comps →
     named "h2_storage" (storage_units n')
     = [("h2_storage",
         [("bus", VStr "hydrogen");
          ("p_nom", dict_get d "h2s_p_nom" (VInt 100));
          ("max_hours", dict_get d "h2s_hours" (VInt 20));
          ("efficiency_store", VFloat 0.98);
          ("efficiency_dispatch", VFloat 0.98);
          ("cyclic_state_of_charge", VBool true);
          ("marginal_cost", VFloat 0.005)])])
  ∧ index (storage_units n')
    = (optl (bool_decide ("battery" ∈ all_devices comps)) ["battery"]
       ++ optl (bool_decide ("h2_storage" ∈ all_devices comps)) ["h2_storage"])%list.
Proof.
  intros Hrun. destruct (run_build_inv _ _ _ _ _ Hrun) as (H & -> & _).
  need_series H. unfold requested. build_run. cbn [snd storage_units].
  split; [|split].
  1,2: intros Hsel; apply (bool_decide_eq_true_2 _) in Hsel;
    rewrite Hsel; pick_rows; reflexivity.
  by rewrite index_app, !index_optl.
Qed.

(** Witness of [build_model_storage_units]: the battery alone. *)
Lemma build_model_storage_units_witness :
  let n' := (run_build check_lengths demo_data (Some ["battery"]) [0; 1]%Z).2 in
  run_build check_lengths demo_data (Some ["battery"]) [0; 1]%Z = (Ok (), n')
  ∧ index (storage_units n') = ["battery"].
Proof.
  intros n'.
  assert (Hrun : run_build check_lengths demo_data (Some ["battery"]) [0; 1]%Z = (Ok (), n'))
    by (vm_compute; reflexivity).
  split; [exact Hrun|].
  exact (proj2 (proj2 (build_model_storage_units check_lengths demo_data (Some ["battery"])
                         [0; 1]%Z n' Hrun))).
Defined.

(** X6. [build_model] is not all-or-nothing.  When a series it reads is
    missing and the library accepts what was handed to it before, the
    method raises and leaves the network half built: the four buses (and
    the generators added before the missing series was read) are there,
    fewer than three loads, and no link and no storage unit. *)
Theorem build_model_failure_is_partial v d comps sns k :
  missing_series d comps = Some k →
  accepted v (requested d comps sns) →
  let n' := (run_build v d comps sns).2 in
  (run_build v d comps sns).1 = Raise (KeyError k)
  ∧ index (buses n') = ["electricity"; "heat"; "cooling"; "hydrogen"]
  ∧ in_index "grid" (generators n') = selected comps "grid"
  ∧ (length (loads n') < 3)%nat
  ∧ links n' = [] ∧ storage_units n' = [].
Proof.
  intros H Hacc. cbn zeta. rewrite (run_build_accepted _ _ _ _ Hacc).
  split; [by rewrite run_build_lenient, H|].
  clear Hacc. unfold missing_series in H.
  destruct (selected comps "pv" && negb (dict_has d "pv_pu")) eqn:Hpv.
  { apply andb_true_iff in Hpv as [Hsel Hpu]. apply negb_true_iff in Hpu.
    until_pv.
    cbn [snd buses generators loads links storage_units].
    repeat split; [by destruct (selected comps "grid") | cbn; lia]. }
  apply andb_false_iff in Hpv. rewrite negb_false_iff in Hpv.
  destruct (dict_has d "elec_load") eqn:He; cbn [negb] in H.
  2:{ until_elec_load.
      cbn [snd buses generators loads links storage_units].
      repeat split; [eval_gen | cbn; lia]. }
  destruct (dict_has d "heat_load") eqn:Hh; cbn [negb] in H.
  2:{ until_heat_load.
      cbn [snd buses generators loads links storage_units].
      repeat split; [eval_gen | cbn; lia]. }
  destruct (dict_has d "cool_load") eqn:Hc; cbn [negb] in H; [discriminate|].
  until_cool_load.
  cbn [snd buses generators loads links storage_units].
  repeat split; [eval_gen | cbn; lia].
Qed.

(** Witness of [build_model_failure_is_partial]: the grid alone, on an
    empty configuration. *)
Lemma build_model_failure_is_partial_witness :
  missing_series ∅ (Some ["grid"]) = Some "elec_load"
  ∧ accepted check_lengths (requested ∅ (Some ["grid"]) [0]%Z)
  ∧ in_index "grid" (generators (run_build check_lengths ∅ (Some ["grid"]) [0]%Z).2) = true
  ∧ links (run_build check_lengths ∅ (Some ["grid"]) [0]%Z).2 = [].
Proof.
  assert (H : missing_series ∅ (Some ["grid"]) = Some "elec_load") by reflexivity.
  assert (Hacc : accepted check_lengths (requested ∅ (Some ["grid"]) [0]%Z))
    by (apply check_lengths_accepted; vm_compute; reflexivity).
  split; [exact H|]. split; [exact Hacc|].
  destruct (build_model_failure_is_partial check_lengths ∅ (Some ["grid"]) [0]%Z
              "elec_load" H Hacc)
    as (_ & _ & Hgrid & _ & Hlinks & _).
  split; [exact Hgrid | exact Hlinks].
Defined.

(** * Further properties of the closure *)

(** X7. The closure leaves the model as it found it, and returns, unless
    both links of some pair are in the network: a network without links, or
    with the heating link of a pair but not its cooling link, gets no
    variable and no constraint. *)
Theorem extra_functionality_without_pair net sns m :
  (∀ p, p ∈ hp_prefixes → family_present net p = false) →
  extra_functionality net sns m = (Ok (), m).
Proof.
  intros H. unfold extra_functionality.
  destruct (assoc "Link-p" (variables m)) as [p_links|]; [|done].
  cbn [for_].
  repeat (erewrite bind_run;
          [| apply heat_pump_constraints_absent, H; repeat constructor]).
  reflexivity.
Qed.

(** Witness of [extra_functionality_without_pair]: a heating link without
    its cooling link. *)
Lemma extra_functionality_without_pair_witness :
  extra_functionality lone_heating_link [0; 1]%Z (dispatch_model lone_heating_link)
  = (Ok (), dispatch_model lone_heating_link).
Proof.
  apply extra_functionality_without_pair. intros p Hp. unfold hp_prefixes in Hp.
  repeat (apply elem_of_cons in Hp as [->|Hp]); [..|by apply elem_of_nil in Hp];
    reflexivity.
Defined.

(** X8. Whatever the network and the model, and whether it returns or
    raises, the closure only appends: the variables and the constraints the
    model had are still there, in place, at the head of the tables. *)
Theorem extra_functionality_only_appends net sns m :
  variables m `prefix_of` variables (extra_functionality net sns m).2
  ∧ constraints m `prefix_of` constraints (extra_functionality net sns m).2.
Proof.
  change (extends m (extra_functionality net sns m).2).
  unfold extra_functionality.
  destruct (assoc "Link-p" (variables m)) as [p_links|]; [|apply extends_refl].
  apply grows_for. intros x. apply grows_heat_pump_constraints.
Qed.

(** X9. In any assignment that satisfies the constraints of the model the
    closure returns, with the mode of a pair at 0 or 1 and its two flows
    not negative, the heating and the cooling link of the pair do not both
    run at a snapshot, and together they stay within the capacity of the
    heating link. *)
Theorem heat_pump_modes_exclusive net sns m m' prefix (ρ : assignment) t p_nom :
  link_p_ok net m →
  extra_functionality net sns m = (Ok (), m') →
  prefix ∈ hp_prefixes →
  family_present net prefix = true →
  num (family_p_nom net prefix) = Some p_nom →
  (∀ x, x ∈ constraints m' → holds ρ t x.2) →
  let l_heat := ρ "Link-p" (Some (prefix ++ "_heating")) t in
  let l_cool := ρ "Link-p" (Some (prefix ++ "_cooling")) t in
  let z := ρ (prefix ++ "_mode") None t in
  (z == 0 ∨ z == 1)%Q → (0 <= l_heat)%Q → (0 <= l_cool)%Q →
  ((l_heat == 0 ∨ l_cool == 0) ∧ l_heat + l_cool <= p_nom)%Q.
Proof.
  intros Hok Hrun Hp Hpres Hnum Hall.
  destruct (family_constraints_meaning net prefix ρ t p_nom Hnum) as (_ & H2 & H3).
  { intros x Hx. apply Hall. by eapply family_constraints_emitted. }
  cbn zeta in *. intros Hz Hh Hc. by apply (exclusive_modes _ _ _ p_nom Hz).
Qed.

(** Witness of [heat_pump_modes_exclusive]: the network built for the
    selection [ashp], every flow and the mode at zero. *)
Lemma heat_pump_modes_exclusive_witness :
  let n0 := (run_build check_lengths demo_data (Some ["ashp"]) [0; 1]%Z).2 in
  let m' := (extra_functionality n0 [0; 1]%Z (dispatch_model n0)).2 in
  link_p_ok n0 (dispatch_model n0)
  ∧ extra_functionality n0 [0; 1]%Z (dispatch_model n0) = (Ok (), m')
  ∧ (∀ x, x ∈ constraints m' → holds (λ _ _ _, 0%Q) 0 x.2)
  ∧ ((0 == 0 ∨ 0 == 0) ∧ 0 + 0 <= inject_Z 500)%Q.
Proof.
  intros n0 m'.
  assert (Hrun : extra_functionality n0 [0; 1]%Z (dispatch_model n0) = (Ok (), m'))
    by reflexivity.
  assert (Hall : ∀ x, x ∈ constraints m' → holds (λ _ _ _, 0%Q) 0 x.2).
  { intros x Hx. apply list_elem_of_In in Hx. vm_compute in Hx.
    destruct Hx as [<-|[<-|[<-|[]]]]; vm_compute; discriminate. }
  split; [apply dispatch_model_ok|]. split; [exact Hrun|]. split; [exact Hall|].
  apply (heat_pump_modes_exclusive n0 [0; 1]%Z (dispatch_model n0) m' "ashp"
           (λ _ _ _, 0%Q) 0%Z (inject_Z 500)
           (dispatch_model_ok n0) Hrun);
    [repeat constructor | reflexivity | reflexivity | exact Hall
    | by left | discriminate | discriminate].
Defined.

(** X10. With the mode at 0 or 1, the two exclusion constraints of a pair
    already imply its capacity-sharing constraint. *)
Theorem capacity_sharing_is_implied net prefix (ρ : assignment) t p_nom :
  num (family_p_nom net prefix) = Some p_nom →
  let z := ρ (prefix ++ "_mode") None t in
  (z == 0 ∨ z == 1)%Q →
  (∀ x, x ∈ drop 1 (family_constraints net prefix) → holds ρ t x.2) →
  ∀ x, x ∈ family_constraints net prefix → holds ρ t x.2.
Proof.
  intros Hnum z Hz Hexcl x Hx. unfold family_constraints in Hx, Hexcl.
  cbn [drop] in Hexcl.
  apply elem_of_cons in Hx as [->|Hx]; [|by apply Hexcl].
  pose proof (Hexcl _ (list_elem_of_here _ _)) as H2.
  pose proof (Hexcl _ (list_elem_of_further _ _ _ (list_elem_of_here _ _))) as H3.
  cbn [snd] in H2, H3 |- *.
  erewrite holds_le in H2 by (cbn; rewrite ?Hnum; reflexivity).
  erewrite holds_le in H3 by (cbn; rewrite ?Hnum; reflexivity).
  erewrite holds_le by (cbn; rewrite ?Hnum; reflexivity).
  change (inject_Z 0) with 0%Q in *. change (inject_Z 1) with 1%Q in *.
  fold z in H2, H3. clearbody z. revert H2 H3.
  generalize (ρ "Link-p" (Some (prefix ++ "_heating")) t).
  generalize (ρ "Link-p" (Some (prefix ++ "_cooling")) t).
  intros c h H2 H3. destruct Hz as [Hz|Hz]; rewrite Hz in H2, H3; lra.
Qed.

(** Witness of [capacity_sharing_is_implied]: the pair of the network built
    for the selection [ashp], every flow and the mode at zero. *)
Lemma capacity_sharing_is_implied_witness :
  let n0 := (run_build check_lengths demo_data (Some ["ashp"]) [0; 1]%Z).2 in
  num (family_p_nom n0 "ashp") = Some (inject_Z 500)
  ∧ ∀ x, x ∈ family_constraints n0 "ashp" → holds (λ _ _ _, 0%Q) 0 x.2.
Proof.
  intros n0. split; [reflexivity|].
  apply (capacity_sharing_is_implied n0 "ashp" (λ _ _ _, 0%Q) 0%Z (inject_Z 500));
    [reflexivity | by left |].
  intros x Hx. apply list_elem_of_In in Hx. vm_compute in Hx.
  destruct Hx as [<-|[<-|[]]]; vm_compute; discriminate.
Defined.

(** * Further properties of the solve loop *)

(** X11. [solve] calls gurobi, copt and glpk in this order and stops at
    the first call that comes back with status ['ok']; only when none does,
    it calls the default solver, once.  It returns [True] exactly when a
    named solver answered ['ok'] or the default call returned at all, and
    it never raises. *)
Theorem solve_outcome create_model backend self w :
  let ans solver_name := answer create_model backend (n self) solver_name in
  let named := ["gurobi"; "copt"; "glpk"] in
  let any := existsb (λ s, optimal (ans (Some s))) named in
  ∃ out,
    solve create_model backend self w
    = (Ok (any || returned (ans None)),
       mkWorld (stdout w ++ out)
         (calls w ++ (Some <$> tried (λ s, ans (Some s)) named)
                  ++ (if any then [] else [None]))).
Proof.
  cbn zeta. unfold solve.
  destruct (solve_loop_run create_model backend (n self) ["gurobi"; "copt"; "glpk"] w)
    as [out Hloop].
  unfold mbind at 1, M_bind at 1. rewrite Hloop.
  destruct (existsb _ _) eqn:Hany; cbn [negb orb].
  - exists out. by rewrite app_nil_r.
  - unfold try_except, mbind, M_bind, print, optimize. cbn [stdout calls].
    destruct (answer create_model backend (n self) None) as [v|e]; cbn [returned stdout calls].
    + eexists. rewrite <- !app_assoc. reflexivity.
    + eexists. rewrite <- !app_assoc. reflexivity.
Qed.

(** X12. When the closure raises on the model of the library, every call
    of [n.optimize] raises the same exception; [solve] then makes all four
    calls, returns [False], and the last line it prints carries the
    exception. *)
Theorem solve_swallows_closure_error create_model backend self w e :
  (extra_functionality (n self) (snapshots (n self)) (create_model (n self))).1 = Raise e →
  ∃ w', solve create_model backend self w = (Ok false, w')
    ∧ calls w' = (calls w ++ [Some "gurobi"; Some "copt"; Some "glpk"; None])%list
    ∧ last (stdout w') = Some ("All optimization attempts failed: " ++ exn_str e).
Proof.
  intros He.
  assert (Hans : ∀ s, answer create_model backend (n self) s = Raise e).
  { intros s. unfold answer.
    destruct (extra_functionality _ _ _) as [[u|e'] m']; cbn [fst] in He;
      [discriminate | by injection He as ->]. }
  unfold solve.
  destruct (solve_loop_run create_model backend (n self) ["gurobi"; "copt"; "glpk"] w)
    as [out Hloop].
  unfold mbind at 1, M_bind at 1. rewrite Hloop.
  cbn [existsb tried]. rewrite !Hans. cbn [optimal orb negb fmap list_fmap].
  unfold try_except, mbind, M_bind, print, optimize. cbn [stdout calls].
  rewrite Hans. cbn [stdout calls].
  eexists. split; [reflexivity|]. cbn [calls stdout]. split.
  - by rewrite <- app_assoc.
  - by rewrite last_snoc.
Qed.

(** Witness of [solve_swallows_closure_error]: a model whose dispatch
    array does not carry the link names, so that the closure's [sel]
    raises [KeyError]. *)
Lemma solve_swallows_closure_error_witness :
  (extra_functionality (n demo_model) (snapshots (n demo_model))
     (unlabelled_model (n demo_model))).1 = Raise (KeyError "ashp_heating")
  ∧ ∃ w', solve unlabelled_model only_default_infeasible demo_model console = (Ok false, w')
      ∧ calls w' = [Some "gurobi"; Some "copt"; Some "glpk"; None].
Proof.
  assert (He : (extra_functionality (n demo_model) (snapshots (n demo_model))
                  (unlabelled_model (n demo_model))).1 = Raise (KeyError "ashp_heating"))
    by reflexivity.
  split; [exact He|].
  destruct (solve_swallows_closure_error unlabelled_model only_default_infeasible
              demo_model console _ He) as (w' & Hrun & Hcalls & _).
  exists w'. split; [exact Hrun | exact Hcalls].
Defined.

(** * Further properties: the application script and the plots *)

(** X13. The selection the sidebar hands to [build_model] names every
    checked device once and nothing else, and the network that
    [build_model] returns for it has exactly the checked devices: each
    generator, converter, heat-pump pair and storage unit is there if and
    only if its box is checked. *)
Theorem sidebar_selection_is_built v ui d sns n' :
  run_build v d (Some (selected_devices ui)) sns = (Ok (), n') →
  NoDup (selected_devices ui)
  ∧ in_index "pv" (generators n') = cb_pv ui
  ∧ in_index "grid" (generators n') = cb_grid ui
  ∧ in_index "electric_boiler" (links n') = cb_electric_boiler ui
  ∧ family_present n' "ashp" = cb_ashp ui
  ∧ family_present n' "gshp_shallow" = cb_gshp_shallow ui
  ∧ family_present n' "gshp_deep" = cb_gshp_deep ui
  ∧ in_index "electrolyzer" (links n') = cb_electrolyzer ui
  ∧ in_index "fuel_cell" (links n') = cb_fuel_cell ui
  ∧ in_index "battery" (storage_units n') = cb_battery ui
  ∧ in_index "h2_storage" (storage_units n') = cb_h2_storage ui.
Proof.
  intros Hrun. destruct (run_build_inv _ _ _ _ _ Hrun) as (H & -> & _). split.
  - rewrite selected_devices_closed.
    eapply NoDup_of_sublist;
      [ repeat match goal with
               | |- (_ ++ _)%list `sublist_of` _ => apply sublist_app
               | |- optl _ _ `sublist_of` _ => apply sublist_optl
               end
      | apply (bool_decide_unpack _); by vm_compute ].
  - need_series H. unfold requested. build_run. unfold selected, all_devices.
    destruct (selected_devices_mem ui)
      as (-> & -> & -> & -> & -> & -> & -> & -> & -> & ->).
    cbn [snd generators links storage_units].
    repeat split; eval_in_index; rewrite ?andb_diag; reflexivity.
Qed.

(** Witness of [sidebar_selection_is_built]: photovoltaics, grid and the
    air-source heat pump checked. *)
Lemma sidebar_selection_is_built_witness :
  let n' := (run_build check_lengths demo_data (Some (selected_devices demo_sidebar))
               [0; 1]%Z).2 in
  run_build check_lengths demo_data (Some (selected_devices demo_sidebar)) [0; 1]%Z
  = (Ok (), n')
  ∧ selected_devices demo_sidebar = ["pv"; "grid"; "ashp"]
  ∧ family_present n' "ashp" = true.
Proof.
  intros n'.
  assert (Hrun : run_build check_lengths demo_data (Some (selected_devices demo_sidebar))
                   [0; 1]%Z = (Ok (), n')) by (vm_compute; reflexivity).
  split; [exact Hrun|]. split; [reflexivity|].
  destruct (sidebar_selection_is_built check_lengths demo_sidebar demo_data [0; 1]%Z n' Hrun)
    as (_ & _ & _ & _ & Hashp & _).
  exact Hashp.
Defined.

(** X14. On a network that [build_model] returned, with at least one
    snapshot and dispatch frames that have one column per link, the balance
    plots of [plot_results] account for every link on the right side: a
    link is summed into the electricity consumption exactly when it draws
    from the electricity bus, it is stacked in the heat plot exactly when
    its first output is the heat bus, and in the cooling plot exactly when
    its first output is the cooling bus. *)
Theorem plot_results_link_columns v d comps sns n' :
  run_build v d comps sns = (Ok (), n') →
  sns ≠ [] →
  ∀ name a, (name, a) ∈ links n' →
    let columns := index (links n') in
    let empty := frame_empty sns columns in
    bool_decide (name ∈ elec_cons_cols empty columns) = on_bus "bus0" "electricity" a
    ∧ bool_decide (name ∈ heat_cols empty columns) = on_bus "bus1" "heat" a
    ∧ bool_decide (name ∈ cool_cols empty columns) = on_bus "bus1" "cooling" a.
Proof.
  intros Hrun Hs. destruct (run_build_inv _ _ _ _ _ Hrun) as (H & -> & _).
  need_series H. unfold requested. build_run.
  cbn [snd links]. intros name a Hin.
  match goal with |- context [frame_empty sns ?c] => set (columns := c) end.
  assert (Hc : name ∈ columns)
    by (apply list_elem_of_fmap; by exists (name, a)).
  rewrite (elec_cons_cols_mem _ _ _ Hs Hc), (heat_cols_mem _ _ _ Hs Hc),
    (cool_cols_mem _ _ _ Hs Hc).
  clear Hc. clearbody columns.
  split_rows Hin; injection Hin as -> ->; repeat split; by vm_compute.
Qed.

(** Witness of [plot_results_link_columns]: the cooling link of the
    air-source heat pump of the demonstration data draws from the
    electricity bus and is in the electricity and cooling plots only. *)
Lemma plot_results_link_columns_witness :
  let n' := (run_build check_lengths demo_data (Some ["grid"; "ashp"]) [0; 1]%Z).2 in
  let columns := index (links n') in
  let empty := frame_empty [0; 1]%Z columns in
  run_build check_lengths demo_data (Some ["grid"; "ashp"]) [0; 1]%Z = (Ok (), n')
  ∧ [0; 1]%Z ≠ []
  ∧ bool_decide ("ashp_cooling" ∈ elec_cons_cols empty columns) = true
  ∧ bool_decide ("ashp_cooling" ∈ heat_cols empty columns) = false
  ∧ bool_decide ("ashp_cooling" ∈ cool_cols empty columns) = true.
Proof.
  intros n' columns empty.
  assert (Hrun : run_build check_lengths demo_data (Some ["grid"; "ashp"]) [0; 1]%Z
                 = (Ok (), n')) by (vm_compute; reflexivity).
  assert (Hs : [0; 1]%Z ≠ []) by done.
  split; [exact Hrun|]. split; [exact Hs|].
  destruct (plot_results_link_columns check_lengths demo_data (Some ["grid"; "ashp"])
              [0; 1]%Z n' Hrun Hs "ashp_cooling" _
              (list_elem_of_further _ _ _ (list_elem_of_here _ _)))
    as (He & Hh & Hc).
  cbv zeta in He, Hh, Hc. fold columns in He, Hh, Hc. fold empty in He, Hh, Hc.
  rewrite He, Hh, Hc. repeat split; reflexivity.
Defined.

(** X15. When the data has a hydrogen load, as the data of the application
    always has, the topology diagram drawn for a selection shows the network
    that [build_model] returns for it: an arrow of the diagram is an
    attachment of a generator, load, link or storage unit to its bus, with
    the same direction, and every attachment is an arrow. *)
Theorem topology_matches_network v d sel sns n' :
  run_build v d (Some sel) sns = (Ok (), n') →
  dict_has d "h2_load" = true →
  ∀ e, e ∈ topology_edges sel ↔ e ∈ network_edges n'.
Proof.
  intros Hrun Hh2. destruct (run_build_inv _ _ _ _ _ Hrun) as (H & -> & _).
  need_series H. unfold requested. build_run. rewrite Hh2. cbn [snd].
  apply same_edges_elem. eval_edges.
  unfold topology_edges, topology. cbn [for_].
  clear. abstract_selection sel.
  repeat match goal with b : bool |- _ => destruct b end;
    vm_compute; reflexivity.
Qed.

(** Witness of [topology_matches_network]: the hydrogen store alone, on the
    demonstration data with a hydrogen demand. *)
Lemma topology_matches_network_witness :
  let d := <["h2_load" := VList [VInt 1; VInt 1]]> demo_data in
  let n' := (run_build check_lengths d (Some ["h2_storage"]) [0; 1]%Z).2 in
  run_build check_lengths d (Some ["h2_storage"]) [0; 1]%Z = (Ok (), n')
  ∧ dict_has d "h2_load" = true
  ∧ ("Bus_H2", "H2S", true) ∈ network_edges n'.
Proof.
  intros d n'.
  assert (Hrun : run_build check_lengths d (Some ["h2_storage"]) [0; 1]%Z = (Ok (), n'))
    by (vm_compute; reflexivity).
  assert (Hh2 : dict_has d "h2_load" = true) by (vm_compute; reflexivity).
  split; [exact Hrun|]. split; [exact Hh2|].
  apply (topology_matches_network check_lengths d ["h2_storage"] [0; 1]%Z n' Hrun Hh2).
  apply (bool_decide_unpack _). by vm_compute.
Defined.

(** X16. The number of connections from which the width of a bus bar is
    taken is the number of arrows the diagram draws at that bus, for each of
    the four buses and every selection. *)
Theorem bus_width_counts_edges sel :
  elec_conn sel
  = Z.of_nat (length (List.filter (touches "Bus_Elec") (topology_edges sel)))
  ∧ heat_conn sel
    = Z.of_nat (length (List.filter (touches "Bus_Heat") (topology_edges sel)))
  ∧ cool_conn sel
    = Z.of_nat (length (List.filter (touches "Bus_Cool") (topology_edges sel)))
  ∧ h2_conn sel
    = Z.of_nat (length (List.filter (touches "Bus_H2") (topology_edges sel))).
Proof.
  unfold elec_conn, heat_conn, cool_conn, h2_conn, topology_edges, topology.
  cbn [for_ foldl]. abstract_selection sel.
  repeat match goal with b : bool |- _ => destruct b end;
    vm_compute; repeat split; reflexivity.
Qed.

(** X17. The text search that counts the running hours of the fuel cell is
    right: the number of rows whose heat column contains FUEL is the number
    of snapshots at which the fuel cell is a column of the dispatch and draws
    more than the threshold, and the hours of the electrolyzer are counted
    as exactly the snapshots at which it runs. *)
Theorem running_hours_are_counted columns p0_gt sns :
  fc_hours columns p0_gt sns
  = length (List.filter (λ t, running columns p0_gt t "fuel_cell") sns)
  ∧ h2_hours columns p0_gt sns
    = length (List.filter (λ t, running columns p0_gt t "electrolyzer") sns).
Proof.
  unfold fc_hours, h2_hours, status_list.
  assert (Hfc : ∀ t, contains "FUEL" (heat_devices (status_row columns p0_gt t))
                     = running columns p0_gt t "fuel_cell").
  { intros t. unfold status_row, active. cbn [foldl heat_devices].
    repeat match goal with
           | |- context [running columns p0_gt t ?x] =>
               generalize (running columns p0_gt t x); intros ?
           end.
    repeat match goal with b : bool |- _ => destruct b end; by vm_compute. }
  assert (Hh2 : ∀ t, String.eqb (h2_status (status_row columns p0_gt t)) "运行"
                     = running columns p0_gt t "electrolyzer").
  { intros t. unfold status_row. cbn [h2_status].
    by destruct (running columns p0_gt t "electrolyzer"). }
  split; induction sns as [|t sns IH]; cbn [fmap list_fmap List.filter]; try done.
  - rewrite Hfc. destruct (running _ _ t "fuel_cell"); cbn [length]; by rewrite IH.
  - rewrite Hh2. destruct (running _ _ t "electrolyzer"); cbn [length]; by rewrite IH.
Qed.
